(** * app-error: structured application errors and the context trace log

    A shallow embedding of the Go package [errors] of
    github.com/piyushkumar96/app-error (files context.go, customError.go and
    the AppError source), with the properties of its specification.

    Go values that live behind pointers ([*TraceMeta], [*CustomErr],
    [*AppError]) are kept in a typed store; a pointer is [None] (nil) or the
    address of a cell.  Every function of the package that touches the store
    is a computation in a state-and-panic monad: it either returns a value
    and the new store, or panics (a nil dereference at run time). *)

From stdpp Require Import gmap strings list fin_maps.
From Stdlib Require Import ZArith.

Local Open Scope string_scope.

(** ** Go values *)

Definition loc := positive.

(** A Go pointer: nil or an address. *)
Abbreviation ptr := (option loc).

(** A non-nil value of interface type [error].  The package only ever calls
    the method [Error()] of such a value, so an implementation is
    represented by the message that method returns (as [errors.New] and
    [fmt.Errorf] build them). *)
Inductive errorValue : Type :=
  | errorString (s : string).

Definition errorValue_Error (e : errorValue) : string :=
  match e with errorString s => s end.

(** The interface type [error]: [None] is the nil interface. *)
Abbreviation error := (option errorValue).

(** The empty interface [interface{}]: the nil interface or a value tagged
    with its dynamic type.  A pointer stored in an interface keeps its
    dynamic type even when the pointer itself is nil. *)
Inductive any : Type :=
  | AnyNil
  | AnyBool (b : bool)
  | AnyInt (z : Z)
  | AnyString (s : string)
  | AnyStrings (l : list string)
  | AnyTraceMetaPtr (p : ptr)
  | AnyCustomErrPtr (p : ptr)
  | AnyAppErrorPtr (p : ptr).

(** context.go: [type TraceMeta struct]. *)
Record TraceMeta : Type := mkTraceMeta {
  TraceMeta_Trace : list string;
  TraceMeta_Error : list string;
  TraceMeta_IdentifierMappings : gmap string any
}.

(** customError.go: [type CustomErr struct]. *)
Record CustomErr : Type := mkCustomErr {
  CustomErr_Code : string;
  CustomErr_Message : string;
  CustomErr_Retryable : bool
}.

(** [type AppError struct]; [ErrorCodes] is a slice, modelled by the list of
    its elements; [httpCode] is a Go [int], on which no arithmetic is done. *)
Record AppError : Type := mkAppError {
  AppError_ActualErr : error;
  AppError_CustomErr : ptr;
  AppError_ErrorCodes : list string;
  AppError_httpCode : Z;
  AppError_data : any
}.

(** Assignment to one field of a struct value. *)
Definition TraceMeta_set_Error (v : list string) (t : TraceMeta) : TraceMeta :=
  mkTraceMeta (TraceMeta_Trace t) v (TraceMeta_IdentifierMappings t).

Definition CustomErr_set_Code (v : string) (c : CustomErr) : CustomErr :=
  mkCustomErr v (CustomErr_Message c) (CustomErr_Retryable c).

Definition CustomErr_set_Message (v : string) (c : CustomErr) : CustomErr :=
  mkCustomErr (CustomErr_Code c) v (CustomErr_Retryable c).

Definition CustomErr_set_Retryable (v : bool) (c : CustomErr) : CustomErr :=
  mkCustomErr (CustomErr_Code c) (CustomErr_Message c) v.

Definition AppError_set_ActualErr (v : error) (a : AppError) : AppError :=
  mkAppError v (AppError_CustomErr a) (AppError_ErrorCodes a)
             (AppError_httpCode a) (AppError_data a).

Definition AppError_set_ErrorCodes (v : list string) (a : AppError) : AppError :=
  mkAppError (AppError_ActualErr a) (AppError_CustomErr a) v
             (AppError_httpCode a) (AppError_data a).

Definition AppError_set_httpCode (v : Z) (a : AppError) : AppError :=
  mkAppError (AppError_ActualErr a) (AppError_CustomErr a)
             (AppError_ErrorCodes a) v (AppError_data a).

Definition AppError_set_data (v : any) (a : AppError) : AppError :=
  mkAppError (AppError_ActualErr a) (AppError_CustomErr a)
             (AppError_ErrorCodes a) (AppError_httpCode a) v.

(** The zero value [CustomErr{}]. *)
Definition CustomErr_zero : CustomErr := mkCustomErr "" "" false.

(** ** The store and the monad of computations *)

Record heap : Type := mkHeap {
  traceMetas : gmap loc TraceMeta;
  customErrs : gmap loc CustomErr;
  appErrors : gmap loc AppError
}.

Definition heap_empty : heap := mkHeap ∅ ∅ ∅.

Inductive result (A : Type) : Type :=
  | Ok (a : A)
  | Panic.
Arguments Ok {A} a.
Arguments Panic {A}.

Definition M (A : Type) : Type := heap -> result (A * heap).

Definition ret {A} (a : A) : M A := fun h => Ok (a, h).

Definition bind {A B} (c : M A) (k : A -> M B) : M B :=
  fun h => match c h with
           | Ok (a, h') => k a h'
           | Panic => Panic
           end.

Definition panic {A} : M A := fun _ => Panic.

Notation "'go' x <- c ;; k" := (bind c (fun x => k))
  (at level 10, x name, c at level 99, k at level 200,
   format "'[v' 'go'  x  <-  c  ;; '/' k ']'").
Notation "'go_' c ;; k" := (bind c (fun _ => k))
  (at level 10, c at level 99, k at level 200,
   format "'[v' 'go_'  c  ;; '/' k ']'").

(** Reading through a pointer: nil panics.  (An address without a cell does
    not occur in a Go program; the model panics there as well.) *)
Definition load_TraceMeta (p : ptr) : M TraceMeta :=
  fun h => match p with
           | Some l => match traceMetas h !! l with
                       | Some v => Ok (v, h)
                       | None => Panic
                       end
           | None => Panic
           end.

Definition load_CustomErr (p : ptr) : M CustomErr :=
  fun h => match p with
           | Some l => match customErrs h !! l with
                       | Some v => Ok (v, h)
                       | None => Panic
                       end
           | None => Panic
           end.

Definition load_AppError (p : ptr) : M AppError :=
  fun h => match p with
           | Some l => match appErrors h !! l with
                       | Some v => Ok (v, h)
                       | None => Panic
                       end
           | None => Panic
           end.

(** Writing through a pointer, cell by cell. *)
Definition store_TraceMeta (p : ptr) (v : TraceMeta) : M unit :=
  fun h => match p with
           | Some l => match traceMetas h !! l with
                       | Some _ => Ok (tt, mkHeap (<[l:=v]> (traceMetas h)) (customErrs h) (appErrors h))
                       | None => Panic
                       end
           | None => Panic
           end.

Definition store_CustomErr (p : ptr) (v : CustomErr) : M unit :=
  fun h => match p with
           | Some l => match customErrs h !! l with
                       | Some _ => Ok (tt, mkHeap (traceMetas h) (<[l:=v]> (customErrs h)) (appErrors h))
                       | None => Panic
                       end
           | None => Panic
           end.

Definition store_AppError (p : ptr) (v : AppError) : M unit :=
  fun h => match p with
           | Some l => match appErrors h !! l with
                       | Some _ => Ok (tt, mkHeap (traceMetas h) (customErrs h) (<[l:=v]> (appErrors h)))
                       | None => Panic
                       end
           | None => Panic
           end.

(** Allocation ([&T{...}]): a cell at an address not in use. *)
Definition new_TraceMeta (v : TraceMeta) : M ptr :=
  fun h => let l := fresh (dom (traceMetas h)) in
           Ok (Some l, mkHeap (<[l:=v]> (traceMetas h)) (customErrs h) (appErrors h)).

Definition new_CustomErr (v : CustomErr) : M ptr :=
  fun h => let l := fresh (dom (customErrs h)) in
           Ok (Some l, mkHeap (traceMetas h) (<[l:=v]> (customErrs h)) (appErrors h)).

Definition new_AppError (v : AppError) : M ptr :=
  fun h => let l := fresh (dom (appErrors h)) in
           Ok (Some l, mkHeap (traceMetas h) (customErrs h) (<[l:=v]> (appErrors h))).

(** Calling [Error()] on a value of interface type [error]: a method call on
    the nil interface panics. *)
Definition error_Error (err : error) : M string :=
  match err with
  | Some e => ret (errorValue_Error e)
  | None => panic
  end.

(** ** context.Context *)

(** The part of the standard library's [context] the package uses: a chain
    of key/value bindings over the empty context, and [Value], which returns
    the innermost binding of a key or the nil interface. *)
Inductive Context : Type :=
  | Background
  | WithValue (parent : Context) (key : string) (val : any).

Fixpoint Context_Value (c : Context) (key : string) : any :=
  match c with
  | Background => AnyNil
  | WithValue parent k v => if decide (k = key) then v else Context_Value parent key
  end.

(** The type assertion [x.( *TraceMeta)] in its two-result form. *)
Definition assert_TraceMetaPtr (x : any) : ptr * bool :=
  match x with
  | AnyTraceMetaPtr p => (p, true)
  | _ => (None, false)
  end.

Section AppErrorPackage.

(** [constants.TraceMetaKey]: the constants package is not part of the
    sources at hand, so the key is a parameter of the development. *)
Variable TraceMetaKey : string.

(** ** context.go *)

(** [func AddTraceLog(ctx context.Context, errorMsg string) *TraceMeta];
    [ctx] is an interface value, [None] is the nil interface. *)
Definition AddTraceLog (ctx : option Context) (errorMsg : string) : M ptr :=
  match ctx with
  | None => ret None
  | Some c =>
      let trace := Context_Value c TraceMetaKey in
      let '(traceMeta, ok) := assert_TraceMetaPtr trace in
      if negb ok then ret None
      else
        go tm <- load_TraceMeta traceMeta ;;
        go_ store_TraceMeta traceMeta
              (TraceMeta_set_Error (TraceMeta_Error tm ++ [errorMsg]) tm) ;;
        ret traceMeta
  end.

(** ** customError.go *)

(** [func GetCustomErr(code, msg string, retryable bool) *CustomErr]. *)
Definition GetCustomErr (code msg : string) (retryable : bool) : M ptr :=
  new_CustomErr (mkCustomErr code msg retryable).

(** ** The AppError methods *)

(** [func (e *AppError) Error() string]. *)
Definition Error (e : ptr) : M string :=
  go a <- load_AppError e ;;
  match AppError_ActualErr a with
  | None => ret ""
  | Some _ => error_Error (AppError_ActualErr a)
  end.

(** [func (e *AppError) GetErr() error]. *)
Definition GetErr (e : ptr) : M error :=
  go a <- load_AppError e ;;
  ret (AppError_ActualErr a).

(** [func (e *AppError) SetErr(err error) error]. *)
Definition SetErr (e : ptr) (err : error) : M error :=
  go a <- load_AppError e ;;
  go_ store_AppError e (AppError_set_ActualErr err a) ;;
  go a' <- load_AppError e ;;
  ret (AppError_ActualErr a').

(** [func (e *AppError) GetMsg() string]. *)
Definition GetMsg (e : ptr) : M string :=
  go a <- load_AppError e ;;
  go c <- load_CustomErr (AppError_CustomErr a) ;;
  ret (CustomErr_Message c).

(** [func (e *AppError) SetMsg(msg string) *AppError]. *)
Definition SetMsg (e : ptr) (msg : string) : M ptr :=
  go a <- load_AppError e ;;
  go c <- load_CustomErr (AppError_CustomErr a) ;;
  go_ store_CustomErr (AppError_CustomErr a) (CustomErr_set_Message msg c) ;;
  ret e.

(** [func (e *AppError) GetHTTPCode() int]. *)
Definition GetHTTPCode (e : ptr) : M Z :=
  go a <- load_AppError e ;;
  ret (AppError_httpCode a).

(** [func (e *AppError) SetHTTPCode(httpCode int) *AppError]. *)
Definition SetHTTPCode (e : ptr) (httpCode : Z) : M ptr :=
  go a <- load_AppError e ;;
  go_ store_AppError e (AppError_set_httpCode httpCode a) ;;
  ret e.

(** [func (e *AppError) GetErrCode() string]. *)
Definition GetErrCode (e : ptr) : M string :=
  go a <- load_AppError e ;;
  go c <- load_CustomErr (AppError_CustomErr a) ;;
  ret (CustomErr_Code c).

(** [func (e *AppError) SetErrCode(code string) *AppError]. *)
Definition SetErrCode (e : ptr) (code : string) : M ptr :=
  go a <- load_AppError e ;;
  go c <- load_CustomErr (AppError_CustomErr a) ;;
  go_ store_CustomErr (AppError_CustomErr a) (CustomErr_set_Code code c) ;;
  ret e.

(** [func (e *AppError) GetErrCodes() []string]. *)
Definition GetErrCodes (e : ptr) : M (list string) :=
  go a <- load_AppError e ;;
  ret (AppError_ErrorCodes a).

(** [func (e *AppError) AddErrCode(errorCode string) *AppError]. *)
Definition AddErrCode (e : ptr) (errorCode : string) : M ptr :=
  if decide (errorCode ≠ "") then
    go a <- load_AppError e ;;
    go c <- load_CustomErr (AppError_CustomErr a) ;;
    go_ store_CustomErr (AppError_CustomErr a) (CustomErr_set_Code errorCode c) ;;
    go a' <- load_AppError e ;;
    go_ store_AppError e
          (AppError_set_ErrorCodes (AppError_ErrorCodes a' ++ [errorCode]) a') ;;
    ret e
  else ret e.

(** [func (e *AppError) GetData() interface{}]. *)
Definition GetData (e : ptr) : M any :=
  go a <- load_AppError e ;;
  ret (AppError_data a).

(** [func (e *AppError) SetData(data interface{}) *AppError]. *)
Definition SetData (e : ptr) (data : any) : M ptr :=
  go a <- load_AppError e ;;
  go_ store_AppError e (AppError_set_data data a) ;;
  ret e.

(** [func GetAppErr(ctx context.Context, err error, customErr *CustomErr,
    httpCode int, meta ...interface{}) *AppError].  The argument
    [err.Error()] of the call to [AddTraceLog] is evaluated first. *)
Definition GetAppErr (ctx : option Context) (err : error) (customErr : ptr)
    (httpCode : Z) (meta : list any) : M ptr :=
  go msg <- error_Error err ;;
  go_ AddTraceLog ctx msg ;;
  go ce <- new_CustomErr CustomErr_zero ;;
  go appErr <- new_AppError (mkAppError err ce [] httpCode AnyNil) ;;
  go_ match meta with
      | m0 :: _ =>
          go a <- load_AppError appErr ;;
          store_AppError appErr (AppError_set_data m0 a)
      | [] => ret tt
      end ;;
  go_ match customErr with
      | Some _ =>
          go d <- load_CustomErr customErr ;;
          go a <- load_AppError appErr ;;
          go c <- load_CustomErr (AppError_CustomErr a) ;;
          go_ store_CustomErr (AppError_CustomErr a)
                (CustomErr_set_Code (CustomErr_Code d) c) ;;
          go d <- load_CustomErr customErr ;;
          go a <- load_AppError appErr ;;
          go c <- load_CustomErr (AppError_CustomErr a) ;;
          go_ store_CustomErr (AppError_CustomErr a)
                (CustomErr_set_Message (CustomErr_Message d) c) ;;
          go d <- load_CustomErr customErr ;;
          go a <- load_AppError appErr ;;
          store_AppError appErr
            (AppError_set_ErrorCodes (AppError_ErrorCodes a ++ [CustomErr_Code d]) a)
      | None => ret tt
      end ;;
  ret appErr.

(** The field path [appErr.CustomErr.Retryable], as the example program
    [ExampleRetryableError] reads it from a constructed error. *)
Definition read_CustomErr_Retryable (e : ptr) : M bool :=
  go a <- load_AppError e ;;
  go c <- load_CustomErr (AppError_CustomErr a) ;;
  ret (CustomErr_Retryable c).

(** ** Sequences of method calls *)

(** One call of a method of [*AppError], with its arguments. *)
Inductive op : Type :=
  | OpError
  | OpGetErr
  | OpSetErr (err : error)
  | OpGetMsg
  | OpSetMsg (msg : string)
  | OpGetHTTPCode
  | OpSetHTTPCode (httpCode : Z)
  | OpGetErrCode
  | OpSetErrCode (code : string)
  | OpGetErrCodes
  | OpAddErrCode (errorCode : string)
  | OpGetData
  | OpSetData (data : any).

Definition apply_op (e : ptr) (o : op) : M unit :=
  match o with
  | OpError => go_ Error e ;; ret tt
  | OpGetErr => go_ GetErr e ;; ret tt
  | OpSetErr err => go_ SetErr e err ;; ret tt
  | OpGetMsg => go_ GetMsg e ;; ret tt
  | OpSetMsg msg => go_ SetMsg e msg ;; ret tt
  | OpGetHTTPCode => go_ GetHTTPCode e ;; ret tt
  | OpSetHTTPCode httpCode => go_ SetHTTPCode e httpCode ;; ret tt
  | OpGetErrCode => go_ GetErrCode e ;; ret tt
  | OpSetErrCode code => go_ SetErrCode e code ;; ret tt
  | OpGetErrCodes => go_ GetErrCodes e ;; ret tt
  | OpAddErrCode errorCode => go_ AddErrCode e errorCode ;; ret tt
  | OpGetData => go_ GetData e ;; ret tt
  | OpSetData data => go_ SetData e data ;; ret tt
  end.

Fixpoint apply_ops (e : ptr) (ops : list op) : M unit :=
  match ops with
  | [] => ret tt
  | o :: ops' => go_ apply_op e o ;; apply_ops e ops'
  end.

(** The chain [e.AddErrCode(c1).AddErrCode(c2)...]: each call is made on the
    pointer the previous one returned. *)
Fixpoint AddErrCodes (e : ptr) (codes : list string) : M ptr :=
  match codes with
  | [] => ret e
  | c :: codes' => go e' <- AddErrCode e c ;; AddErrCodes e' codes'
  end.

(** What a sequence of calls is expected to leave behind: the code most
    recently set or (non-empty) added, the codes added to the history, and
    whether the last call that changed the primary code also logged it. *)
Definition code_after (code : string) (o : op) : string :=
  match o with
  | OpSetErrCode c => c
  | OpAddErrCode c => if decide (c ≠ "") then c else code
  | _ => code
  end.

Definition history_after (codes : list string) (o : op) : list string :=
  match o with
  | OpAddErrCode c => if decide (c ≠ "") then codes ++ [c] else codes
  | _ => codes
  end.

Definition logged_after (b : bool) (o : op) : bool :=
  match o with
  | OpSetErrCode _ => false
  | OpAddErrCode c => if decide (c ≠ "") then true else b
  | _ => b
  end.

Definition nonempty_codes (codes : list string) : list string :=
  filter (λ c, c ≠ "") codes.

(** ** Conditions on the store *)

(** [e] points to the AppError [a], whose definition pointer points to [c]. *)
Definition AppError_at (h : heap) (e : ptr) (a : AppError) (c : CustomErr) : Prop :=
  load_AppError e h = Ok (a, h) ∧
  load_CustomErr (AppError_CustomErr a) h = Ok (c, h).

(** A pointer handed to the package is nil or the address of a cell: Go has
    no dangling pointers. *)
Definition nil_or_allocated {V} (m : gmap loc V) (p : ptr) : bool :=
  match p with
  | Some l => match m !! l with Some _ => true | None => false end
  | None => true
  end.

(** The carrier is usable for tracing: if the key holds a [*TraceMeta], that
    pointer is the address of a TraceMeta. *)
Definition carrier_ok (h : heap) (ctx : option Context) : bool :=
  match ctx with
  | None => true
  | Some c =>
      match Context_Value c TraceMetaKey with
      | AnyTraceMetaPtr (Some l) =>
          match traceMetas h !! l with Some _ => true | None => false end
      | AnyTraceMetaPtr None => false
      | _ => true
      end
  end.

(** The carrier is absent, or its key does not hold a [*TraceMeta]. *)
Definition no_TraceMeta (ctx : option Context) : bool :=
  match ctx with
  | None => true
  | Some c => negb (snd (assert_TraceMetaPtr (Context_Value c TraceMetaKey)))
  end.

(** The template a definition pointer designates, if any, and what the
    constructor is expected to build from it. *)
Definition template_of (h : heap) (customErr : ptr) : option CustomErr :=
  match customErr with
  | Some l => customErrs h !! l
  | None => None
  end.

Definition definition_from (t : option CustomErr) : CustomErr :=
  match t with
  | Some d => mkCustomErr (CustomErr_Code d) (CustomErr_Message d) false
  | None => CustomErr_zero
  end.

Definition history_from (t : option CustomErr) : list string :=
  match t with
  | Some d => [CustomErr_Code d]
  | None => []
  end.

Definition first_meta (meta : list any) : any :=
  match meta with
  | m0 :: _ => m0
  | [] => AnyNil
  end.

(** The message of an underlying failure that may be absent. *)
Definition message_of (err : error) : string :=
  match err with
  | Some x => errorValue_Error x
  | None => ""
  end.

(** A code history follows the primary code: when it is not empty, its last
    entry is the primary code. *)
Definition history_tracks_code (codes : list string) (code : string) : Prop :=
  codes ≠ [] → last codes = Some code.

(** The value of a computation, if it returned. *)
Definition returned {A} (r : result (A * heap)) : option A :=
  match r with
  | Ok (a, _) => Some a
  | Panic => None
  end.

(** ** Cell contents after a call *)

(** What one method call makes of the receiver's cell and of its
    definition's cell. *)
Definition op_AppError (o : op) (a : AppError) : AppError :=
  match o with
  | OpSetErr err => AppError_set_ActualErr err a
  | OpSetHTTPCode httpCode => AppError_set_httpCode httpCode a
  | OpAddErrCode c =>
      if decide (c ≠ "")
      then AppError_set_ErrorCodes (AppError_ErrorCodes a ++ [c]) a
      else a
  | OpSetData data => AppError_set_data data a
  | _ => a
  end.

Definition op_CustomErr (o : op) (c : CustomErr) : CustomErr :=
  match o with
  | OpSetMsg msg => CustomErr_set_Message msg c
  | OpSetErrCode code => CustomErr_set_Code code c
  | OpAddErrCode x => if decide (x ≠ "") then CustomErr_set_Code x c else c
  | _ => c
  end.

Definition ops_AppError (ops : list op) (a : AppError) : AppError :=
  fold_left (λ a o, op_AppError o a) ops a.

Definition ops_CustomErr (ops : list op) (c : CustomErr) : CustomErr :=
  fold_left (λ c o, op_CustomErr o c) ops c.

(** The calls [AddTraceLog(ctx, m1); AddTraceLog(ctx, m2); ...] one after
    the other, their results dropped. *)
Fixpoint AddTraceLogs (ctx : option Context) (msgs : list string) : M unit :=
  match msgs with
  | [] => ret tt
  | m :: msgs' => go_ AddTraceLog ctx m ;; AddTraceLogs ctx msgs'
  end.

(** Two constructions from one template, as a package-level template is
    used at several failure sites. *)
Definition GetAppErr_twice (ctx : option Context) (err1 err2 : error)
    (customErr : ptr) (httpCode1 httpCode2 : Z) : M (ptr * ptr) :=
  go e1 <- GetAppErr ctx err1 customErr httpCode1 [] ;;
  go e2 <- GetAppErr ctx err2 customErr httpCode2 [] ;;
  ret (e1, e2).

(** The zero AppError [&AppError{}], built without the constructor: its
    definition pointer is nil. *)
Definition AppError_zero : AppError := mkAppError None None [] 0 AnyNil.

Definition zero_AppError_heap : heap :=
  mkHeap ∅ ∅ {[ 1%positive := AppError_zero ]}.

(** A carrier whose key holds a nil [*TraceMeta]. *)
Definition nil_TraceMeta_ctx : Context :=
  WithValue Background TraceMetaKey (AnyTraceMetaPtr None).

(** What the seven accessors return on the AppError at [e], each leaving
    the store as it was. *)
Definition accessors_return (h : heap) (e : ptr) (err : error) (msg : string)
    (httpCode : Z) (code : string) (codes : list string) (data : any) : Prop :=
  Error e h = Ok (message_of err, h) ∧
  GetErr e h = Ok (err, h) ∧
  GetMsg e h = Ok (msg, h) ∧
  GetHTTPCode e h = Ok (httpCode, h) ∧
  GetErrCode e h = Ok (code, h) ∧
  GetErrCodes e h = Ok (codes, h) ∧
  GetData e h = Ok (data, h).

(** ** Sample data *)

Definition sample_TraceMeta : TraceMeta := mkTraceMeta [] [] ∅.

Definition sample_template : CustomErr :=
  mkCustomErr "ERR_SVC_1005" "service temporarily unavailable" true.

(** A store with one TraceMeta and one error template. *)
Definition sample_heap : heap :=
  mkHeap {[ 1%positive := sample_TraceMeta ]}
         {[ 1%positive := sample_template ]}
         ∅.

(** A carrier with the TraceMeta installed under the key. *)
Definition sample_ctx : option Context :=
  Some (WithValue Background TraceMetaKey (AnyTraceMetaPtr (Some 1%positive))).

(** A carrier whose key holds a value of another type. *)
Definition wrong_shape_ctx : option Context :=
  Some (WithValue Background TraceMetaKey (AnyString "trace")).

Definition sample_err : errorValue := errorString "service overloaded".

(** A store holding one constructed AppError and its definition. *)
Definition sample_AppError : AppError :=
  mkAppError (Some sample_err) (Some 2%positive) ["ERR_SVC_1003"] 500 AnyNil.

Definition sample_definition : CustomErr :=
  mkCustomErr "ERR_SVC_1003" "unexpected error occurred" false.

Definition sample_heap_with_error : heap :=
  mkHeap ∅ {[ 2%positive := sample_definition ]} {[ 1%positive := sample_AppError ]}.

(** A store with a TraceMeta, a template, and a constructed AppError with
    its definition. *)
Definition sample_heap_full : heap :=
  mkHeap {[ 1%positive := sample_TraceMeta ]}
         (<[1%positive:=sample_template]> {[ 2%positive := sample_definition ]})
         {[ 1%positive := sample_AppError ]}.

(** The store and the construction of the specification's scenarios. *)
Definition scenario_heap : heap :=
  mkHeap {[ 1%positive := sample_TraceMeta ]}
         {[ 1%positive := mkCustomErr "ERR_404" "not found" false ]}
         ∅.

Definition scenario_construct : M ptr :=
  GetAppErr sample_ctx (Some (errorString "some error")) (Some 1%positive) 404 [].

(** The example program's [ExampleRetryableError]: a retryable template
    built by [GetCustomErr], an error constructed from it, and the flag read
    back through the error. *)
Definition ExampleRetryableError : M bool :=
  go ServiceTemporarilyUnavailable <-
    GetCustomErr "ERR_SVC_1005" "service temporarily unavailable" true ;;
  go appErr <- GetAppErr (Some Background) (Some (errorString "service overloaded"))
                 ServiceTemporarilyUnavailable 503 [] ;;
  read_CustomErr_Retryable appErr.

End AppErrorPackage.

(** * Properties *)

(** ** Sequencing *)

Lemma bind_Ok {A B} (c : M A) (k : A → M B) (h : heap) (a : A) (h' : heap) :
  c h = Ok (a, h') → bind c k h = k a h'.
Proof. intros E. unfold bind. by rewrite E. Qed.

Lemma bind_Panic {A B} (c : M A) (k : A → M B) (h : heap) :
  c h = Panic → bind c k h = Panic.
Proof. intros E. unfold bind. by rewrite E. Qed.

(** ** Reading and writing cells *)

Lemma load_AppError_inv (e : ptr) (h h' : heap) (a : AppError) :
  load_AppError e h = Ok (a, h') →
  ∃ l, e = Some l ∧ appErrors h !! l = Some a ∧ h' = h.
Proof.
  unfold load_AppError. destruct e as [l|]; [|discriminate].
  destruct (appErrors h !! l) as [v|] eqn:E; [|discriminate].
  intros [= -> ->]. eauto.
Qed.

Lemma load_CustomErr_inv (p : ptr) (h h' : heap) (c : CustomErr) :
  load_CustomErr p h = Ok (c, h') →
  ∃ l, p = Some l ∧ customErrs h !! l = Some c ∧ h' = h.
Proof.
  unfold load_CustomErr. destruct p as [l|]; [|discriminate].
  destruct (customErrs h !! l) as [v|] eqn:E; [|discriminate].
  intros [= -> ->]. eauto.
Qed.

Lemma load_AppError_at (h : heap) (l : loc) (a : AppError) :
  appErrors h !! l = Some a → load_AppError (Some l) h = Ok (a, h).
Proof. intros E. unfold load_AppError. by rewrite E. Qed.

Lemma load_CustomErr_at (h : heap) (l : loc) (c : CustomErr) :
  customErrs h !! l = Some c → load_CustomErr (Some l) h = Ok (c, h).
Proof. intros E. unfold load_CustomErr. by rewrite E. Qed.

Lemma store_AppError_at (h : heap) (l : loc) (a v : AppError) :
  appErrors h !! l = Some a →
  store_AppError (Some l) v h
  = Ok (tt, mkHeap (traceMetas h) (customErrs h) (<[l:=v]> (appErrors h))).
Proof. intros E. unfold store_AppError. by rewrite E. Qed.

Lemma store_CustomErr_at (h : heap) (l : loc) (c v : CustomErr) :
  customErrs h !! l = Some c →
  store_CustomErr (Some l) v h
  = Ok (tt, mkHeap (traceMetas h) (<[l:=v]> (customErrs h)) (appErrors h)).
Proof. intros E. unfold store_CustomErr. by rewrite E. Qed.

Lemma AppError_at_inv (h : heap) (e : ptr) (a : AppError) (c : CustomErr) :
  AppError_at h e a c →
  ∃ l lc, e = Some l ∧ appErrors h !! l = Some a ∧
          AppError_CustomErr a = Some lc ∧ customErrs h !! lc = Some c.
Proof.
  intros [Ha Hc].
  apply load_AppError_inv in Ha as (l & -> & Ha & _).
  apply load_CustomErr_inv in Hc as (lc & Hp & Hc & _).
  eauto 10.
Qed.

Lemma AppError_at_intro (h : heap) (l lc : loc) (a : AppError) (c : CustomErr) :
  appErrors h !! l = Some a → AppError_CustomErr a = Some lc →
  customErrs h !! lc = Some c → AppError_at h (Some l) a c.
Proof.
  intros Ha Hp Hc. split.
  - by apply load_AppError_at.
  - rewrite Hp. by apply load_CustomErr_at.
Qed.

(** Symbolic execution of a method body on a store in which the receiver
    and its definition are known. *)
Ltac exec_with Ha Hp Hc :=
  unfold bind, ret;
  repeat first
    [ rewrite (load_AppError_at _ _ _ Ha)
    | rewrite (store_AppError_at _ _ _ _ Ha)
    | rewrite Hp
    | rewrite (load_CustomErr_at _ _ _ Hc)
    | rewrite (store_CustomErr_at _ _ _ _ Hc)
    | progress simpl
    | rewrite lookup_insert_eq ].

(** Evaluation of reads and writes on cells that were just written. *)
Ltac exec_cells :=
  repeat (simpl;
          first [ rewrite lookup_insert_eq
                | rewrite lookup_insert_ne by done
                | rewrite insert_insert_eq
                | match goal with
                  | H : ?m !! ?k = Some _ |- context [?m !! ?k] => rewrite H
                  end ]);
  simpl.

(** Re-establishing [AppError_at] after a write to one of the two cells. *)
Ltac at_intro l lc :=
  apply (AppError_at_intro _ l lc); simpl;
  first [ apply lookup_insert_eq | assumption | reflexivity ].

(** ** The accessors *)

(** [Error()] reads the receiver only: it returns also when the definition
    pointer is nil. *)
Lemma Error_of_receiver (h : heap) (e : ptr) (a : AppError) :
  load_AppError e h = Ok (a, h) →
  Error e h = Ok (message_of (AppError_ActualErr a), h).
Proof.
  intros Ha. unfold Error. rewrite (bind_Ok _ _ _ _ _ Ha).
  by destruct (AppError_ActualErr a).
Qed.

Section Methods.

Variables (h : heap) (e : ptr) (a : AppError) (c : CustomErr).
Hypothesis He : AppError_at h e a c.

Lemma Error_at : Error e h = Ok (message_of (AppError_ActualErr a), h).
Proof. apply Error_of_receiver, He. Qed.

Lemma GetErr_at : GetErr e h = Ok (AppError_ActualErr a, h).
Proof.
  destruct (AppError_at_inv _ _ _ _ He) as (l & lc & -> & Ha & Hp & Hc).
  unfold GetErr. by exec_with Ha Hp Hc.
Qed.

Lemma GetMsg_at : GetMsg e h = Ok (CustomErr_Message c, h).
Proof.
  destruct (AppError_at_inv _ _ _ _ He) as (l & lc & -> & Ha & Hp & Hc).
  unfold GetMsg. by exec_with Ha Hp Hc.
Qed.

Lemma GetHTTPCode_at : GetHTTPCode e h = Ok (AppError_httpCode a, h).
Proof.
  destruct (AppError_at_inv _ _ _ _ He) as (l & lc & -> & Ha & Hp & Hc).
  unfold GetHTTPCode. by exec_with Ha Hp Hc.
Qed.

Lemma GetErrCode_at : GetErrCode e h = Ok (CustomErr_Code c, h).
Proof.
  destruct (AppError_at_inv _ _ _ _ He) as (l & lc & -> & Ha & Hp & Hc).
  unfold GetErrCode. by exec_with Ha Hp Hc.
Qed.

Lemma GetErrCodes_at : GetErrCodes e h = Ok (AppError_ErrorCodes a, h).
Proof.
  destruct (AppError_at_inv _ _ _ _ He) as (l & lc & -> & Ha & Hp & Hc).
  unfold GetErrCodes. by exec_with Ha Hp Hc.
Qed.

Lemma GetData_at : GetData e h = Ok (AppError_data a, h).
Proof.
  destruct (AppError_at_inv _ _ _ _ He) as (l & lc & -> & Ha & Hp & Hc).
  unfold GetData. by exec_with Ha Hp Hc.
Qed.

Lemma read_CustomErr_Retryable_at :
  read_CustomErr_Retryable e h = Ok (CustomErr_Retryable c, h).
Proof.
  destruct (AppError_at_inv _ _ _ _ He) as (l & lc & -> & Ha & Hp & Hc).
  unfold read_CustomErr_Retryable. by exec_with Ha Hp Hc.
Qed.

(** ** The mutators *)

Lemma SetErr_at (err : error) :
  ∃ h', SetErr e err h = Ok (err, h') ∧
        AppError_at h' e (AppError_set_ActualErr err a) c.
Proof.
  destruct (AppError_at_inv _ _ _ _ He) as (l & lc & -> & Ha & Hp & Hc).
  eexists. unfold SetErr. exec_with Ha Hp Hc. split; [reflexivity|].
  by at_intro l lc.
Qed.

Lemma SetHTTPCode_at (httpCode : Z) :
  ∃ h', SetHTTPCode e httpCode h = Ok (e, h') ∧
        AppError_at h' e (AppError_set_httpCode httpCode a) c.
Proof.
  destruct (AppError_at_inv _ _ _ _ He) as (l & lc & -> & Ha & Hp & Hc).
  eexists. unfold SetHTTPCode. exec_with Ha Hp Hc. split; [reflexivity|].
  by at_intro l lc.
Qed.

Lemma SetData_at (data : any) :
  ∃ h', SetData e data h = Ok (e, h') ∧
        AppError_at h' e (AppError_set_data data a) c.
Proof.
  destruct (AppError_at_inv _ _ _ _ He) as (l & lc & -> & Ha & Hp & Hc).
  eexists. unfold SetData. exec_with Ha Hp Hc. split; [reflexivity|].
  by at_intro l lc.
Qed.

Lemma SetMsg_at (msg : string) :
  ∃ h', SetMsg e msg h = Ok (e, h') ∧
        AppError_at h' e a (CustomErr_set_Message msg c).
Proof.
  destruct (AppError_at_inv _ _ _ _ He) as (l & lc & -> & Ha & Hp & Hc).
  eexists. unfold SetMsg. exec_with Ha Hp Hc. split; [reflexivity|].
  by at_intro l lc.
Qed.

Lemma SetErrCode_at (code : string) :
  ∃ h', SetErrCode e code h = Ok (e, h') ∧
        AppError_at h' e a (CustomErr_set_Code code c).
Proof.
  destruct (AppError_at_inv _ _ _ _ He) as (l & lc & -> & Ha & Hp & Hc).
  eexists. unfold SetErrCode. exec_with Ha Hp Hc. split; [reflexivity|].
  by at_intro l lc.
Qed.

Lemma AddErrCode_empty : AddErrCode e "" h = Ok (e, h).
Proof. reflexivity. Qed.

Lemma AddErrCode_at (errorCode : string) :
  errorCode ≠ "" →
  ∃ h', AddErrCode e errorCode h = Ok (e, h') ∧
        AppError_at h' e
          (AppError_set_ErrorCodes (AppError_ErrorCodes a ++ [errorCode]) a)
          (CustomErr_set_Code errorCode c).
Proof.
  intros Hne.
  destruct (AppError_at_inv _ _ _ _ He) as (l & lc & -> & Ha & Hp & Hc).
  eexists. unfold AddErrCode. rewrite decide_True by done.
  exec_with Ha Hp Hc. unfold load_AppError, store_AppError. simpl.
  rewrite Ha. simpl. rewrite Ha. split; [reflexivity|].
  by at_intro l lc.
Qed.

End Methods.

(** ** The trace log and the constructor *)

Section Properties.

Variable TraceMetaKey : string.

Lemma AddTraceLog_absent (ctx : option Context) (msg : string) (h : heap) :
  no_TraceMeta TraceMetaKey ctx = true →
  AddTraceLog TraceMetaKey ctx msg h = Ok (None, h).
Proof.
  unfold no_TraceMeta, AddTraceLog. destruct ctx as [c|]; [|done].
  by destruct (Context_Value c TraceMetaKey).
Qed.

Lemma AddTraceLog_present (c : Context) (msg : string) (h : heap)
    (l : loc) (tm : TraceMeta) :
  Context_Value c TraceMetaKey = AnyTraceMetaPtr (Some l) →
  traceMetas h !! l = Some tm →
  AddTraceLog TraceMetaKey (Some c) msg h
  = Ok (Some l,
        mkHeap (<[l:=TraceMeta_set_Error (TraceMeta_Error tm ++ [msg]) tm]>
                  (traceMetas h))
               (customErrs h) (appErrors h)).
Proof.
  intros Hv Hl. unfold AddTraceLog. rewrite Hv. simpl.
  unfold bind, load_TraceMeta, store_TraceMeta. rewrite Hl. simpl.
  by rewrite Hl.
Qed.

(** A nil [*TraceMeta] under the key passes the type assertion and is then
    dereferenced. *)
Lemma AddTraceLog_nil_TraceMeta_panics (c : Context) (msg : string) (h : heap) :
  Context_Value c TraceMetaKey = AnyTraceMetaPtr None →
  AddTraceLog TraceMetaKey (Some c) msg h = Panic.
Proof. intros Hv. unfold AddTraceLog. by rewrite Hv. Qed.

(** A call on a usable carrier returns, and touches TraceMeta cells only. *)
Lemma AddTraceLog_frame (ctx : option Context) (msg : string) (h : heap) :
  carrier_ok TraceMetaKey h ctx = true →
  ∃ r tms, AddTraceLog TraceMetaKey ctx msg h
           = Ok (r, mkHeap tms (customErrs h) (appErrors h)).
Proof.
  intros Hok. destruct (no_TraceMeta TraceMetaKey ctx) eqn:Hno.
  - rewrite AddTraceLog_absent by done. destruct h. do 2 eexists. reflexivity.
  - unfold carrier_ok, no_TraceMeta in *. destruct ctx as [c|]; [|done].
    destruct (Context_Value c TraceMetaKey) as [| | | | |[l|]| |] eqn:Hv;
      try done.
    destruct (traceMetas h !! l) as [tm|] eqn:Hl; [|done].
    erewrite AddTraceLog_present by done. do 2 eexists. reflexivity.
Qed.

(** The constructor on a present underlying failure: it returns a fresh
    AppError whose definition is a fresh cell. *)
Lemma GetAppErr_returns (ctx : option Context) (ev : errorValue)
    (customErr : ptr) (httpCode : Z) (meta : list any) (h : heap) :
  carrier_ok TraceMetaKey h ctx = true →
  nil_or_allocated (customErrs h) customErr = true →
  ∃ l lc h1,
    GetAppErr TraceMetaKey ctx (Some ev) customErr httpCode meta h
    = Ok (Some l, h1) ∧
    AppError_at h1 (Some l)
      (mkAppError (Some ev) (Some lc) (history_from (template_of h customErr))
                  httpCode (first_meta meta))
      (definition_from (template_of h customErr)) ∧
    customErrs h !! lc = None ∧
    customErrs h1
    = <[lc:=definition_from (template_of h customErr)]> (customErrs h).
Proof.
  intros Hctx Hd.
  destruct (AddTraceLog_frame ctx (errorValue_Error ev) h Hctx) as (r & tms & Ht).
  set (lc := fresh (dom (customErrs h))).
  set (l := fresh (dom (appErrors h))).
  assert (Hlc : customErrs h !! lc = None).
  { apply not_elem_of_dom. apply is_fresh. }
  unfold GetAppErr.
  rewrite (bind_Ok _ _ h (errorValue_Error ev) h) by reflexivity.
  rewrite (bind_Ok _ _ _ _ _ Ht).
  rewrite (bind_Ok _ _ _ (Some lc)
             (mkHeap tms (<[lc:=CustomErr_zero]> (customErrs h)) (appErrors h)))
    by reflexivity.
  rewrite (bind_Ok _ _ _ (Some l)
             (mkHeap tms (<[lc:=CustomErr_zero]> (customErrs h))
                (<[l:=mkAppError (Some ev) (Some lc) [] httpCode AnyNil]>
                   (appErrors h))))
    by reflexivity.
  unfold bind, ret, load_CustomErr, store_CustomErr, load_AppError,
    store_AppError.
  destruct customErr as [ld|]; simpl in Hd |- *.
  - destruct (customErrs h !! ld) as [d|] eqn:Hld; [|done].
    assert (Hne : lc ≠ ld) by congruence.
    destruct meta as [|m0 meta']; exec_cells;
      (exists l, lc; eexists; split; [reflexivity|];
       split; [by at_intro l lc|by split]).
  - destruct meta as [|m0 meta']; exec_cells;
      (exists l, lc; eexists; split; [reflexivity|];
       split; [by at_intro l lc|by split]).
Qed.

(** Writing to another CustomErr cell does not disturb an AppError. *)
Lemma AppError_at_store_other (h h' : heap) (e : ptr) (a : AppError)
    (c v : CustomErr) (ld : loc) :
  AppError_at h e a c → AppError_CustomErr a ≠ Some ld →
  store_CustomErr (Some ld) v h = Ok (tt, h') →
  AppError_at h' e a c.
Proof.
  intros He Hne Hst.
  destruct (AppError_at_inv _ _ _ _ He) as (l & lc & -> & Ha & Hp & Hc).
  unfold store_CustomErr in Hst.
  destruct (customErrs h !! ld) eqn:Hld; [|done].
  injection Hst as <-. apply (AppError_at_intro _ l lc); simpl; try done.
  rewrite lookup_insert_ne; [done|congruence].
Qed.

(** ** Sequences of calls *)

Lemma apply_op_at (h : heap) (e : ptr) (a : AppError) (c : CustomErr) (o : op) :
  AppError_at h e a c →
  ∃ h' a' c',
    apply_op e o h = Ok (tt, h') ∧ AppError_at h' e a' c' ∧
    CustomErr_Code c' = code_after (CustomErr_Code c) o ∧
    AppError_ErrorCodes a' = history_after (AppError_ErrorCodes a) o.
Proof.
  intros He. destruct o; simpl.
  - exists h, a, c. by rewrite (bind_Ok _ _ _ _ _ (Error_at h e a c He)).
  - exists h, a, c. by rewrite (bind_Ok _ _ _ _ _ (GetErr_at h e a c He)).
  - destruct (SetErr_at h e a c He err) as (h' & E & He').
    exists h', (AppError_set_ActualErr err a), c. by erewrite bind_Ok.
  - exists h, a, c. by rewrite (bind_Ok _ _ _ _ _ (GetMsg_at h e a c He)).
  - destruct (SetMsg_at h e a c He msg) as (h' & E & He').
    exists h', a, (CustomErr_set_Message msg c). by erewrite bind_Ok.
  - exists h, a, c. by rewrite (bind_Ok _ _ _ _ _ (GetHTTPCode_at h e a c He)).
  - destruct (SetHTTPCode_at h e a c He httpCode) as (h' & E & He').
    exists h', (AppError_set_httpCode httpCode a), c. by erewrite bind_Ok.
  - exists h, a, c. by rewrite (bind_Ok _ _ _ _ _ (GetErrCode_at h e a c He)).
  - destruct (SetErrCode_at h e a c He code) as (h' & E & He').
    exists h', a, (CustomErr_set_Code code c). by erewrite bind_Ok.
  - exists h, a, c. by rewrite (bind_Ok _ _ _ _ _ (GetErrCodes_at h e a c He)).
  - destruct (decide (errorCode ≠ "")) as [Hne|Hemp].
    + destruct (AddErrCode_at h e a c He errorCode Hne) as (h' & E & He').
      exists h', (AppError_set_ErrorCodes (AppError_ErrorCodes a ++ [errorCode]) a),
        (CustomErr_set_Code errorCode c).
      by erewrite bind_Ok.
    + exists h, a, c. apply dec_stable in Hemp as ->. done.
  - exists h, a, c. by rewrite (bind_Ok _ _ _ _ _ (GetData_at h e a c He)).
  - destruct (SetData_at h e a c He data) as (h' & E & He').
    exists h', (AppError_set_data data a), c. by erewrite bind_Ok.
Qed.

Lemma apply_ops_at (ops : list op) (h : heap) (e : ptr) (a : AppError)
    (c : CustomErr) :
  AppError_at h e a c →
  ∃ h' a' c',
    apply_ops e ops h = Ok (tt, h') ∧ AppError_at h' e a' c' ∧
    CustomErr_Code c' = fold_left code_after ops (CustomErr_Code c) ∧
    AppError_ErrorCodes a' = fold_left history_after ops (AppError_ErrorCodes a).
Proof.
  revert h a c. induction ops as [|o ops IH]; intros h a c He; simpl.
  - by exists h, a, c.
  - destruct (apply_op_at h e a c o He) as (h1 & a1 & c1 & E & He1 & Hc & Hh).
    destruct (IH h1 a1 c1 He1) as (h2 & a2 & c2 & E2 & He2 & Hc2 & Hh2).
    exists h2, a2, c2. rewrite (bind_Ok _ _ _ _ _ E), <- Hc, <- Hh. done.
Qed.

Lemma tracks_after (b : bool) (codes : list string) (code : string) (o : op) :
  (b = true → history_tracks_code codes code) →
  logged_after b o = true →
  history_tracks_code (history_after codes o) (code_after code o).
Proof.
  intros Hb. destruct o; simpl; try done.
  destruct (decide (errorCode ≠ "")); [|done].
  intros _ _. apply last_snoc.
Qed.

Lemma tracks_after_all (ops : list op) (b : bool) (codes : list string)
    (code : string) :
  (b = true → history_tracks_code codes code) →
  fold_left logged_after ops b = true →
  history_tracks_code (fold_left history_after ops codes)
                      (fold_left code_after ops code).
Proof.
  revert b codes code. induction ops as [|o ops IH]; intros b codes code Hb; simpl.
  - done.
  - apply IH. by apply tracks_after.
Qed.

Lemma AddErrCodes_at (codes : list string) (h : heap) (e : ptr)
    (a : AppError) (c : CustomErr) :
  AppError_at h e a c → Forall (λ x, x ≠ "") codes →
  ∃ h' a' c',
    AddErrCodes e codes h = Ok (e, h') ∧ AppError_at h' e a' c' ∧
    CustomErr_Code c' = default (CustomErr_Code c) (last codes) ∧
    AppError_ErrorCodes a' = (AppError_ErrorCodes a ++ codes)%list.
Proof.
  revert h a c. induction codes as [|x codes IH]; intros h a c He Hne; simpl.
  - exists h, a, c. by rewrite app_nil_r.
  - apply Forall_cons in Hne as [Hx Hne].
    destruct (AddErrCode_at h e a c He x Hx) as (h1 & E & He1).
    destruct (IH _ _ _ He1 Hne) as (h2 & a2 & c2 & E2 & He2 & Hc2 & Hh2).
    exists h2, a2, c2. rewrite (bind_Ok _ _ _ _ _ E). split; [done|].
    split; [done|]. simpl in *. rewrite Hh2, <- app_assoc. split; [|done].
    rewrite Hc2, last_cons. by destruct (last codes).
Qed.

Lemma AddErrCodes_skip_empty (codes : list string) (e : ptr) (h : heap) :
  AddErrCodes e codes h = AddErrCodes e (nonempty_codes codes) h.
Proof.
  revert e h. unfold nonempty_codes.
  induction codes as [|x codes IH]; intros e h; [done|].
  rewrite filter_cons. destruct (decide (x ≠ "")) as [Hx|Hx]; simpl.
  - unfold bind. destruct (AddErrCode e x h) as [[e' h']|]; [apply IH|done].
  - apply dec_stable in Hx as ->. apply IH.
Qed.

(** ** The properties of the specification *)

(** C1 (the code at the failing input).  The claim is that the constructor
    never raises, even when the underlying failure is absent.  On the code,
    a call with a nil underlying failure panics, whatever the carrier, the
    definition, the status, the metadata and the store: the message
    [err.Error()] is requested from the nil interface before anything else
    is done. *)
Theorem GetAppErr_nil_err_panics (ctx : option Context) (customErr : ptr)
    (httpCode : Z) (meta : list any) (h : heap) :
  GetAppErr TraceMetaKey ctx None customErr httpCode meta h = Panic.
Proof. reflexivity. Qed.

(** C2 (as amended).  After construction and any sequence of method calls,
    the primary code is the code most recently set or (non-empty) added, or
    the constructed one if there was none; and when the last call that
    changed the primary code was not [SetErrCode], a non-empty code history
    ends with the primary code. *)
Theorem code_history_follows_primary_code (ctx : option Context)
    (ev : errorValue) (customErr : ptr) (httpCode : Z) (meta : list any)
    (h : heap) (ops : list op) :
  carrier_ok TraceMetaKey h ctx = true →
  nil_or_allocated (customErrs h) customErr = true →
  ∃ e h1 h2 code0 codes,
    GetAppErr TraceMetaKey ctx (Some ev) customErr httpCode meta h = Ok (e, h1) ∧
    GetErrCode e h1 = Ok (code0, h1) ∧
    apply_ops e ops h1 = Ok (tt, h2) ∧
    GetErrCode e h2 = Ok (fold_left code_after ops code0, h2) ∧
    GetErrCodes e h2 = Ok (codes, h2) ∧
    (fold_left logged_after ops true = true →
     history_tracks_code codes (fold_left code_after ops code0)).
Proof.
  intros Hctx Hd.
  destruct (GetAppErr_returns ctx ev customErr httpCode meta h Hctx Hd)
    as (l & lc & h1 & E & He & _ & _).
  destruct (apply_ops_at ops _ _ _ _ He) as (h2 & a2 & c2 & E2 & He2 & Hc & Hh).
  exists (Some l), h1, h2, (CustomErr_Code (definition_from (template_of h customErr))),
    (AppError_ErrorCodes a2).
  split; [done|]. split; [by apply GetErrCode_at in He|]. split; [done|].
  split; [rewrite <- Hc; by apply GetErrCode_at in He2|].
  split; [by apply GetErrCodes_at in He2|].
  rewrite Hh. apply tracks_after_all. intros _. unfold history_tracks_code.
  destruct (template_of h customErr); simpl; [done|]. intros Hnil. by destruct Hnil.
Qed.

(** C3.  Whatever the template's retryable flag, the AppError the
    constructor returns has [CustomErr.Retryable] false. *)
Theorem GetAppErr_Retryable_false (ctx : option Context) (ev : errorValue)
    (customErr : ptr) (httpCode : Z) (meta : list any) (h : heap) :
  carrier_ok TraceMetaKey h ctx = true →
  nil_or_allocated (customErrs h) customErr = true →
  ∃ e h1,
    GetAppErr TraceMetaKey ctx (Some ev) customErr httpCode meta h = Ok (e, h1) ∧
    read_CustomErr_Retryable e h1 = Ok (false, h1).
Proof.
  intros Hctx Hd.
  destruct (GetAppErr_returns ctx ev customErr httpCode meta h Hctx Hd)
    as (l & lc & h1 & E & He & _ & _).
  exists (Some l), h1. split; [done|].
  rewrite (read_CustomErr_Retryable_at _ _ _ _ He).
  by destruct (template_of h customErr).
Qed.

(** C4.  On any AppError with code history [h0], a chain of [AddErrCode]
    calls with non-empty codes [c1 .. cn] leaves [cn] as primary code (the
    old one when the chain is empty) and [h0 ++ [c1 .. cn]] as history; and
    calls with the empty code, anywhere in a chain, change nothing: the
    chain does what it does without them, and a single such call returns
    with the store as it was. *)
Theorem AddErrCode_history (h : heap) (e : ptr) (a : AppError) (c : CustomErr) :
  AppError_at h e a c →
  (∀ codes, Forall (λ x, x ≠ "") codes →
     ∃ h', AddErrCodes e codes h = Ok (e, h') ∧
           GetErrCode e h' = Ok (default (CustomErr_Code c) (last codes), h') ∧
           GetErrCodes e h' = Ok ((AppError_ErrorCodes a ++ codes)%list, h')) ∧
  (∀ codes h0, AddErrCodes e codes h0 = AddErrCodes e (nonempty_codes codes) h0) ∧
  (∀ h0, AddErrCode e "" h0 = Ok (e, h0)).
Proof.
  intros He. split; [|split].
  - intros codes Hne.
    destruct (AddErrCodes_at codes h e a c He Hne) as (h' & a' & c' & E & He' & Hc & Hh).
    exists h'. split; [done|]. rewrite <- Hc, <- Hh.
    split; [by apply GetErrCode_at in He'|by apply GetErrCodes_at in He'].
  - intros codes h0. apply AddErrCodes_skip_empty.
  - done.
Qed.

(** C5.  On a carrier that is absent, or whose key does not hold a
    [*TraceMeta], [AddTraceLog] returns nil and leaves the store as it was;
    the outcome is that of the call on the absent carrier. *)
Theorem AddTraceLog_silent_degrade (ctx : option Context) (msg : string)
    (h : heap) :
  no_TraceMeta TraceMetaKey ctx = true →
  AddTraceLog TraceMetaKey ctx msg h = Ok (None, h) ∧
  AddTraceLog TraceMetaKey ctx msg h = AddTraceLog TraceMetaKey None msg h.
Proof. intros Hno. by rewrite AddTraceLog_absent. Qed.

(** C6.  An AppError built from the template at [d] does not change its
    message or primary code when the cell of [d] is overwritten afterwards:
    both stay those the template had at construction. *)
Theorem definition_copy_isolation (ctx : option Context) (ev : errorValue)
    (d : loc) (dv : CustomErr) (httpCode : Z) (meta : list any) (h : heap) :
  carrier_ok TraceMetaKey h ctx = true →
  customErrs h !! d = Some dv →
  ∃ e h1,
    GetAppErr TraceMetaKey ctx (Some ev) (Some d) httpCode meta h = Ok (e, h1) ∧
    GetMsg e h1 = Ok (CustomErr_Message dv, h1) ∧
    GetErrCode e h1 = Ok (CustomErr_Code dv, h1) ∧
    ∀ v : CustomErr,
      ∃ h2, store_CustomErr (Some d) v h1 = Ok (tt, h2) ∧
            GetMsg e h2 = Ok (CustomErr_Message dv, h2) ∧
            GetErrCode e h2 = Ok (CustomErr_Code dv, h2).
Proof.
  intros Hctx Hd.
  destruct (GetAppErr_returns ctx ev (Some d) httpCode meta h Hctx)
    as (l & lc & h1 & E & He & Hfresh & Hces).
  { simpl. by rewrite Hd. }
  simpl in He, Hces. rewrite Hd in He, Hces.
  assert (Hne : lc ≠ d) by congruence.
  exists (Some l), h1. split; [done|].
  split; [by apply GetMsg_at in He|]. split; [by apply GetErrCode_at in He|].
  intros v.
  assert (Hd1 : customErrs h1 !! d = Some dv).
  { rewrite Hces, lookup_insert_ne; done. }
  eexists. split; [by apply (store_CustomErr_at _ _ dv)|].
  assert (He2 : AppError_at
            (mkHeap (traceMetas h1) (<[d:=v]> (customErrs h1)) (appErrors h1))
            (Some l)
            (mkAppError (Some ev) (Some lc) [CustomErr_Code dv] httpCode
                        (first_meta meta))
            (mkCustomErr (CustomErr_Code dv) (CustomErr_Message dv) false)).
  { eapply AppError_at_store_other; [exact He| |by apply (store_CustomErr_at _ _ dv)].
    simpl. congruence. }
  split; [by apply GetMsg_at in He2|by apply GetErrCode_at in He2].
Qed.

(** C7.  On any AppError, [Error()] returns the empty string when the
    underlying failure is absent and its message otherwise; with the
    definition in place, [GetMsg] returns the definition's message.
    Replacing the underlying failure changes the first and not the second;
    replacing the definition's message changes the second and not the
    first. *)
Theorem message_duality (h : heap) (e : ptr) (a : AppError) :
  load_AppError e h = Ok (a, h) →
  Error e h = Ok (match AppError_ActualErr a with
                  | None => ""
                  | Some x => errorValue_Error x
                  end, h) ∧
  ∀ c, load_CustomErr (AppError_CustomErr a) h = Ok (c, h) →
    GetMsg e h = Ok (CustomErr_Message c, h) ∧
    (∀ err, ∃ h', SetErr e err h = Ok (err, h') ∧
                  Error e h' = Ok (message_of err, h') ∧
                  GetMsg e h' = Ok (CustomErr_Message c, h')) ∧
    (∀ msg, ∃ h', SetMsg e msg h = Ok (e, h') ∧
                  Error e h' = Ok (message_of (AppError_ActualErr a), h') ∧
                  GetMsg e h' = Ok (msg, h')).
Proof.
  intros Ha. split.
  { rewrite (Error_of_receiver _ _ _ Ha). by destruct (AppError_ActualErr a). }
  intros c Hc. assert (He : AppError_at h e a c) by done.
  split; [|split].
  - by apply GetMsg_at in He.
  - intros err. destruct (SetErr_at h e a c He err) as (h' & E & He').
    exists h'. split; [done|].
    split; [by apply Error_at in He'|by apply GetMsg_at in He'].
  - intros msg. destruct (SetMsg_at h e a c He msg) as (h' & E & He').
    exists h'. split; [done|].
    split; [by apply Error_at in He'|by apply GetMsg_at in He'].
Qed.

(** C8.  On a carrier whose key holds a pointer to a TraceMeta, a call of
    [AddTraceLog] returns that pointer and appends its message, and nothing
    else, to the end of the error log; two calls with ["a"] then ["b"] on an
    empty log leave the log [["a"; "b"]]. *)
Theorem AddTraceLog_appends_in_order (c : Context) (l : loc) (tm : TraceMeta)
    (h : heap) :
  Context_Value c TraceMetaKey = AnyTraceMetaPtr (Some l) →
  traceMetas h !! l = Some tm →
  (∀ msg,
     AddTraceLog TraceMetaKey (Some c) msg h
     = Ok (Some l,
           mkHeap (<[l:=mkTraceMeta (TraceMeta_Trace tm)
                          (TraceMeta_Error tm ++ [msg])
                          (TraceMeta_IdentifierMappings tm)]> (traceMetas h))
                  (customErrs h) (appErrors h))) ∧
  (TraceMeta_Error tm = [] →
   ∀ a b, ∃ h1 h2 tm2,
     AddTraceLog TraceMetaKey (Some c) a h = Ok (Some l, h1) ∧
     AddTraceLog TraceMetaKey (Some c) b h1 = Ok (Some l, h2) ∧
     traceMetas h2 !! l = Some tm2 ∧
     TraceMeta_Error tm2 = [a; b]).
Proof.
  intros Hv Hl. split.
  - intros msg. by apply AddTraceLog_present.
  - intros Hempty a b. do 3 eexists.
    split; [by apply AddTraceLog_present|].
    split; [apply AddTraceLog_present; [done|apply lookup_insert_eq]|].
    simpl. split; [apply lookup_insert_eq|]. simpl. by rewrite Hempty.
Qed.

(** C9 (the code at the failing input).  The claim is that construction
    with an absent definition succeeds for every carrier and every
    underlying failure.  On the code, a call with a nil underlying failure
    and a nil definition panics, whatever the carrier, the status, the
    metadata and the store: [err.Error()] is called on the nil interface
    before the definition is looked at. *)
Theorem GetAppErr_absent_definition_nil_err_panics (ctx : option Context)
    (httpCode : Z) (meta : list any) (h : heap) :
  GetAppErr TraceMetaKey ctx None None httpCode meta h = Panic.
Proof. reflexivity. Qed.

(** X18.  With a nil definition, a present underlying failure and a usable
    carrier, the constructor returns an AppError with empty primary code,
    empty message and empty code history. *)
Theorem GetAppErr_absent_definition (ctx : option Context) (ev : errorValue)
    (httpCode : Z) (meta : list any) (h : heap) :
  carrier_ok TraceMetaKey h ctx = true →
  ∃ e h1,
    GetAppErr TraceMetaKey ctx (Some ev) None httpCode meta h = Ok (e, h1) ∧
    GetErrCode e h1 = Ok ("", h1) ∧
    GetMsg e h1 = Ok ("", h1) ∧
    GetErrCodes e h1 = Ok ([], h1).
Proof.
  intros Hctx.
  destruct (GetAppErr_returns ctx ev None httpCode meta h Hctx)
    as (l & lc & h1 & E & He & _ & _); [done|].
  exists (Some l), h1. split; [done|].
  split; [by apply GetErrCode_at in He|].
  split; [by apply GetMsg_at in He|by apply GetErrCodes_at in He].
Qed.

(** C10.  After construction [GetData] returns nil when no metadata value
    was supplied, and the first supplied value otherwise; further values
    are dropped and the constructor still returns. *)
Theorem GetAppErr_keeps_first_meta (ctx : option Context) (ev : errorValue)
    (customErr : ptr) (httpCode : Z) (meta : list any) (h : heap) :
  carrier_ok TraceMetaKey h ctx = true →
  nil_or_allocated (customErrs h) customErr = true →
  ∃ e h1,
    GetAppErr TraceMetaKey ctx (Some ev) customErr httpCode meta h = Ok (e, h1) ∧
    GetData e h1 = Ok (match meta with
                       | [] => AnyNil
                       | m0 :: _ => m0
                       end, h1).
Proof.
  intros Hctx Hd.
  destruct (GetAppErr_returns ctx ev customErr httpCode meta h Hctx Hd)
    as (l & lc & h1 & E & He & _ & _).
  exists (Some l), h1. split; [done|].
  rewrite (GetData_at _ _ _ _ He). by destruct meta.
Qed.

End Properties.

(** ** The properties at sample inputs *)

(** C2, as first stated, fails: after [SetErrCode] the code history still
    ends with the constructed code, not with the primary code. *)
Lemma SetErrCode_leaves_history_behind :
  returned
    ((go e <- GetAppErr "traceMeta" (sample_ctx "traceMeta") (Some sample_err)
                (Some 1%positive) 503 [] ;;
      go_ SetErrCode e "ERR_SVC_1003" ;;
      go code <- GetErrCode e ;;
      go codes <- GetErrCodes e ;;
      ret (code, codes)) sample_heap)
  = Some ("ERR_SVC_1003", ["ERR_SVC_1005"]) ∧
  ¬ history_tracks_code ["ERR_SVC_1005"] "ERR_SVC_1003".
Proof.
  split; [by vm_compute|]. intros H. by specialize (H ltac:(done)).
Qed.

Lemma code_history_follows_primary_code_witness :
  carrier_ok "traceMeta" sample_heap (sample_ctx "traceMeta") = true ∧
  nil_or_allocated (customErrs sample_heap) (Some 1%positive) = true ∧
  ∃ e h1 h2 codes,
    GetAppErr "traceMeta" (sample_ctx "traceMeta") (Some sample_err)
      (Some 1%positive) 503 [] sample_heap = Ok (e, h1) ∧
    apply_ops e [OpAddErrCode "ERR_NETWORK_TIMEOUT"; OpSetMsg "timeout";
                 OpAddErrCode ""] h1 = Ok (tt, h2) ∧
    GetErrCode e h2 = Ok ("ERR_NETWORK_TIMEOUT", h2) ∧
    GetErrCodes e h2 = Ok (codes, h2) ∧
    history_tracks_code codes "ERR_NETWORK_TIMEOUT".
Proof.
  split; [reflexivity|]. split; [reflexivity|].
  destruct (code_history_follows_primary_code "traceMeta"
              (sample_ctx "traceMeta") sample_err (Some 1%positive) 503 []
              sample_heap
              [OpAddErrCode "ERR_NETWORK_TIMEOUT"; OpSetMsg "timeout";
               OpAddErrCode ""] eq_refl eq_refl)
    as (e & h1 & h2 & code0 & codes & E & E0 & Eops & Ecode & Ecodes & Htr).
  exists e, h1, h2, codes. repeat split; try assumption.
  apply Htr. reflexivity.
Defined.

Lemma GetAppErr_Retryable_false_witness :
  carrier_ok "traceMeta" sample_heap (sample_ctx "traceMeta") = true ∧
  nil_or_allocated (customErrs sample_heap) (Some 1%positive) = true ∧
  customErrs sample_heap !! 1%positive = Some sample_template ∧
  CustomErr_Retryable sample_template = true ∧
  ∃ e h1,
    GetAppErr "traceMeta" (sample_ctx "traceMeta") (Some sample_err)
      (Some 1%positive) 503 [] sample_heap = Ok (e, h1) ∧
    read_CustomErr_Retryable e h1 = Ok (false, h1).
Proof.
  split; [reflexivity|]. split; [reflexivity|]. split; [reflexivity|].
  split; [reflexivity|].
  apply (GetAppErr_Retryable_false "traceMeta" (sample_ctx "traceMeta")
           sample_err (Some 1%positive) 503 [] sample_heap);
    reflexivity.
Defined.

Lemma AddErrCode_history_witness :
  AppError_at sample_heap_with_error (Some 1%positive) sample_AppError
    sample_definition ∧
  ∃ h', AddErrCodes (Some 1%positive)
          ["ERR_NETWORK_TIMEOUT"; "ERR_DOWNSTREAM_SERVICE_UNAVAILABLE"]
          sample_heap_with_error = Ok (Some 1%positive, h') ∧
        GetErrCode (Some 1%positive) h'
        = Ok ("ERR_DOWNSTREAM_SERVICE_UNAVAILABLE", h') ∧
        GetErrCodes (Some 1%positive) h'
        = Ok (["ERR_SVC_1003"; "ERR_NETWORK_TIMEOUT";
               "ERR_DOWNSTREAM_SERVICE_UNAVAILABLE"], h').
Proof.
  assert (He : AppError_at sample_heap_with_error (Some 1%positive)
                 sample_AppError sample_definition)
    by (split; reflexivity).
  split; [exact He|].
  apply (proj1 (AddErrCode_history sample_heap_with_error (Some 1%positive)
                  sample_AppError sample_definition He)
           ["ERR_NETWORK_TIMEOUT"; "ERR_DOWNSTREAM_SERVICE_UNAVAILABLE"]).
  repeat constructor; discriminate.
Defined.

Lemma AddTraceLog_silent_degrade_witness :
  no_TraceMeta "traceMeta" (wrong_shape_ctx "traceMeta") = true ∧
  AddTraceLog "traceMeta" (wrong_shape_ctx "traceMeta") "db timeout" sample_heap
  = Ok (None, sample_heap).
Proof.
  split; [reflexivity|].
  apply (AddTraceLog_silent_degrade "traceMeta" (wrong_shape_ctx "traceMeta")
           "db timeout" sample_heap).
  reflexivity.
Defined.

Lemma definition_copy_isolation_witness :
  carrier_ok "traceMeta" sample_heap (sample_ctx "traceMeta") = true ∧
  customErrs sample_heap !! 1%positive = Some sample_template ∧
  ∃ e h1,
    GetAppErr "traceMeta" (sample_ctx "traceMeta") (Some sample_err)
      (Some 1%positive) 503 [] sample_heap = Ok (e, h1) ∧
    ∃ h2, store_CustomErr (Some 1%positive)
            (mkCustomErr "ERR_CHANGED" "changed" false) h1 = Ok (tt, h2) ∧
          GetMsg e h2 = Ok ("service temporarily unavailable", h2) ∧
          GetErrCode e h2 = Ok ("ERR_SVC_1005", h2).
Proof.
  split; [reflexivity|]. split; [reflexivity|].
  destruct (definition_copy_isolation "traceMeta" (sample_ctx "traceMeta")
              sample_err 1%positive sample_template 503 [] sample_heap
              eq_refl eq_refl)
    as (e & h1 & E & _ & _ & Hiso).
  exists e, h1. split; [exact E|].
  exact (Hiso (mkCustomErr "ERR_CHANGED" "changed" false)).
Defined.

Lemma message_duality_witness :
  load_AppError (Some 1%positive) sample_heap_with_error
  = Ok (sample_AppError, sample_heap_with_error) ∧
  load_CustomErr (AppError_CustomErr sample_AppError) sample_heap_with_error
  = Ok (sample_definition, sample_heap_with_error) ∧
  Error (Some 1%positive) sample_heap_with_error
  = Ok ("service overloaded", sample_heap_with_error) ∧
  GetMsg (Some 1%positive) sample_heap_with_error
  = Ok ("unexpected error occurred", sample_heap_with_error).
Proof.
  split; [reflexivity|]. split; [reflexivity|].
  destruct (message_duality sample_heap_with_error (Some 1%positive)
              sample_AppError eq_refl) as (HE & HM).
  split; [exact HE|].
  exact (proj1 (HM sample_definition eq_refl)).
Defined.

Lemma AddTraceLog_appends_in_order_witness :
  Context_Value
    (WithValue Background "traceMeta" (AnyTraceMetaPtr (Some 1%positive)))
    "traceMeta" = AnyTraceMetaPtr (Some 1%positive) ∧
  traceMetas sample_heap !! 1%positive = Some sample_TraceMeta ∧
  TraceMeta_Error sample_TraceMeta = [] ∧
  ∃ h1 h2 tm2,
    AddTraceLog "traceMeta" (sample_ctx "traceMeta") "a" sample_heap
    = Ok (Some 1%positive, h1) ∧
    AddTraceLog "traceMeta" (sample_ctx "traceMeta") "b" h1
    = Ok (Some 1%positive, h2) ∧
    traceMetas h2 !! 1%positive = Some tm2 ∧
    TraceMeta_Error tm2 = ["a"; "b"].
Proof.
  split; [reflexivity|]. split; [reflexivity|]. split; [reflexivity|].
  apply (proj2 (AddTraceLog_appends_in_order "traceMeta"
                  (WithValue Background "traceMeta"
                     (AnyTraceMetaPtr (Some 1%positive)))
                  1%positive sample_TraceMeta sample_heap eq_refl eq_refl)
           eq_refl "a" "b").
Defined.

Lemma GetAppErr_absent_definition_witness :
  carrier_ok "traceMeta" sample_heap (sample_ctx "traceMeta") = true ∧
  ∃ e h1,
    GetAppErr "traceMeta" (sample_ctx "traceMeta") (Some sample_err) None 400 []
      sample_heap = Ok (e, h1) ∧
    GetErrCode e h1 = Ok ("", h1) ∧
    GetMsg e h1 = Ok ("", h1) ∧
    GetErrCodes e h1 = Ok ([], h1).
Proof.
  split; [reflexivity|].
  apply (GetAppErr_absent_definition "traceMeta" (sample_ctx "traceMeta")
           sample_err 400 [] sample_heap).
  reflexivity.
Defined.

Lemma GetAppErr_keeps_first_meta_witness :
  carrier_ok "traceMeta" sample_heap (sample_ctx "traceMeta") = true ∧
  nil_or_allocated (customErrs sample_heap) (Some 1%positive) = true ∧
  ∃ e h1,
    GetAppErr "traceMeta" (sample_ctx "traceMeta") (Some sample_err)
      (Some 1%positive) 503 [AnyString "payment-service"; AnyInt 5000]
      sample_heap = Ok (e, h1) ∧
    GetData e h1 = Ok (AnyString "payment-service", h1).
Proof.
  split; [reflexivity|]. split; [reflexivity|].
  apply (GetAppErr_keeps_first_meta "traceMeta" (sample_ctx "traceMeta")
           sample_err (Some 1%positive) 503
           [AnyString "payment-service"; AnyInt 5000] sample_heap);
    reflexivity.
Defined.

(** ** The scenarios of the specification *)

Example scenario_1 :
  returned ((go e <- scenario_construct "traceMeta" ;;
             go code <- GetErrCode e ;;
             go codes <- GetErrCodes e ;;
             go status <- GetHTTPCode e ;;
             ret (code, codes, status)) scenario_heap)
  = Some ("ERR_404", ["ERR_404"], 404%Z).
Proof. by vm_compute. Qed.

Example scenario_2 :
  returned ((go e <- scenario_construct "traceMeta" ;;
             go e <- AddErrCode e "ERR_404_VARIANT" ;;
             go code <- GetErrCode e ;;
             go codes <- GetErrCodes e ;;
             ret (code, codes)) scenario_heap)
  = Some ("ERR_404_VARIANT", ["ERR_404"; "ERR_404_VARIANT"]).
Proof. by vm_compute. Qed.

Example scenario_3 :
  returned ((go e <- scenario_construct "traceMeta" ;;
             go e <- SetData e (AnyString "email") ;;
             go e <- SetHTTPCode e 422 ;;
             go data <- GetData e ;;
             go status <- GetHTTPCode e ;;
             ret (data, status)) scenario_heap)
  = Some (AnyString "email", 422%Z).
Proof. by vm_compute. Qed.

Example scenario_4 :
  AddTraceLog "traceMeta" (Some Background) "db timeout" scenario_heap
  = Ok (None, scenario_heap).
Proof. reflexivity. Qed.

Example scenario_5 :
  returned ((go_ AddTraceLog "traceMeta" (sample_ctx "traceMeta") "first" ;;
             go tm <- AddTraceLog "traceMeta" (sample_ctx "traceMeta") "second" ;;
             go t <- load_TraceMeta tm ;;
             ret (TraceMeta_Error t)) scenario_heap)
  = Some ["first"; "second"].
Proof. by vm_compute. Qed.

(** The trace log receives the message of the underlying failure. *)
Example constructor_logs_failure :
  returned ((go_ scenario_construct "traceMeta" ;;
             go t <- load_TraceMeta (Some 1%positive) ;;
             ret (TraceMeta_Error t)) scenario_heap)
  = Some ["some error"].
Proof. by vm_compute. Qed.

(** The example program reads the retryable flag as false, though its
    template was built retryable. *)
Example ExampleRetryableError_reads_false :
  returned (ExampleRetryableError "traceMeta" heap_empty) = Some false.
Proof. by vm_compute. Qed.

(** * Further properties of the package *)

(** ** The store after a method call *)

Lemma heap_eta (h : heap) :
  mkHeap (traceMetas h) (customErrs h) (appErrors h) = h.
Proof. by destruct h. Qed.

(** A method call on a well-formed receiver writes the receiver's cell and
    its definition's cell, and nothing else. *)
Lemma apply_op_store (h : heap) (l lc : loc) (a : AppError) (c : CustomErr)
    (o : op) :
  appErrors h !! l = Some a → AppError_CustomErr a = Some lc →
  customErrs h !! lc = Some c →
  apply_op (Some l) o h
  = Ok (tt, mkHeap (traceMetas h) (<[lc:=op_CustomErr o c]> (customErrs h))
                   (<[l:=op_AppError o a]> (appErrors h))).
Proof.
  intros Ha Hp Hc.
  assert (Hida : <[l:=a]> (appErrors h) = appErrors h) by by apply insert_id.
  assert (Hidc : <[lc:=c]> (customErrs h) = customErrs h) by by apply insert_id.
  destruct o; simpl;
    unfold Error, GetErr, SetErr, GetMsg, SetMsg, GetHTTPCode, SetHTTPCode,
      GetErrCode, SetErrCode, GetErrCodes, AddErrCode, GetData, SetData;
    try (destruct (decide (errorCode ≠ "")));
    exec_with Ha Hp Hc;
    rewrite ?Hida, ?Hidc, ?heap_eta; try reflexivity.
  - destruct (AppError_ActualErr a); simpl; by rewrite ?heap_eta.
  - unfold load_AppError, store_AppError. simpl. rewrite Ha. simpl.
    by rewrite Ha.
Qed.

Lemma op_AppError_CustomErr (o : op) (a : AppError) :
  AppError_CustomErr (op_AppError o a) = AppError_CustomErr a.
Proof. destruct o; simpl; try done. by destruct (decide (errorCode ≠ "")). Qed.

Lemma op_CustomErr_Retryable (o : op) (c : CustomErr) :
  CustomErr_Retryable (op_CustomErr o c) = CustomErr_Retryable c.
Proof. destruct o; simpl; try done. by destruct (decide (errorCode ≠ "")). Qed.

Lemma op_AppError_history (o : op) (a : AppError) :
  ∃ added, AppError_ErrorCodes (op_AppError o a)
           = (AppError_ErrorCodes a ++ added)%list.
Proof.
  destruct o; simpl; try (exists []; by rewrite app_nil_r).
  destruct (decide (errorCode ≠ "")); simpl.
  - by exists [errorCode].
  - exists []. by rewrite app_nil_r.
Qed.

Lemma ops_AppError_CustomErr (ops : list op) (a : AppError) :
  AppError_CustomErr (ops_AppError ops a) = AppError_CustomErr a.
Proof.
  revert a. induction ops as [|o ops IH]; intros a; simpl; [done|].
  unfold ops_AppError in *. simpl. by rewrite IH, op_AppError_CustomErr.
Qed.

Lemma ops_CustomErr_Retryable (ops : list op) (c : CustomErr) :
  CustomErr_Retryable (ops_CustomErr ops c) = CustomErr_Retryable c.
Proof.
  revert c. induction ops as [|o ops IH]; intros c; simpl; [done|].
  unfold ops_CustomErr in *. simpl. by rewrite IH, op_CustomErr_Retryable.
Qed.

Lemma ops_AppError_history (ops : list op) (a : AppError) :
  ∃ added, AppError_ErrorCodes (ops_AppError ops a)
           = (AppError_ErrorCodes a ++ added)%list.
Proof.
  revert a. induction ops as [|o ops IH]; intros a.
  - exists []. by rewrite app_nil_r.
  - destruct (op_AppError_history o a) as (x & Hx).
    destruct (IH (op_AppError o a)) as (y & Hy).
    exists (x ++ y)%list. unfold ops_AppError in *. simpl.
    by rewrite Hy, Hx, app_assoc.
Qed.

Lemma apply_ops_store (ops : list op) (h : heap) (l lc : loc) (a : AppError)
    (c : CustomErr) :
  appErrors h !! l = Some a → AppError_CustomErr a = Some lc →
  customErrs h !! lc = Some c →
  apply_ops (Some l) ops h
  = Ok (tt, mkHeap (traceMetas h) (<[lc:=ops_CustomErr ops c]> (customErrs h))
                   (<[l:=ops_AppError ops a]> (appErrors h))).
Proof.
  revert h a c. induction ops as [|o ops IH]; intros h a c Ha Hp Hc; simpl.
  - unfold ret. by rewrite !insert_id, heap_eta.
  - rewrite (bind_Ok _ _ _ _ _ (apply_op_store h l lc a c o Ha Hp Hc)).
    rewrite (IH _ (op_AppError o a) (op_CustomErr o c)); simpl.
    + by rewrite !insert_insert_eq.
    + apply lookup_insert_eq.
    + by rewrite op_AppError_CustomErr.
    + apply lookup_insert_eq.
Qed.

Lemma AppError_at_accessors (h : heap) (e : ptr) (a : AppError) (c : CustomErr) :
  AppError_at h e a c →
  accessors_return h e (AppError_ActualErr a) (CustomErr_Message c)
    (AppError_httpCode a) (CustomErr_Code c) (AppError_ErrorCodes a)
    (AppError_data a).
Proof.
  intros He. repeat split.
  - by apply Error_at in He.
  - by eapply GetErr_at.
  - by apply GetMsg_at in He.
  - by eapply GetHTTPCode_at.
  - by apply GetErrCode_at in He.
  - by eapply GetErrCodes_at.
  - by eapply GetData_at.
Qed.

(** ** The template constructor *)

(** X1.  [GetCustomErr] returns the address of a cell that was not in use,
    holding exactly the three values given; every other cell of the store
    is as it was. *)
Theorem GetCustomErr_allocates (code msg : string) (retryable : bool) (h : heap) :
  ∃ l h',
    GetCustomErr code msg retryable h = Ok (Some l, h') ∧
    customErrs h !! l = None ∧
    load_CustomErr (Some l) h' = Ok (mkCustomErr code msg retryable, h') ∧
    (∀ k v, customErrs h !! k = Some v → customErrs h' !! k = Some v) ∧
    traceMetas h' = traceMetas h ∧ appErrors h' = appErrors h.
Proof.
  set (l := fresh (dom (customErrs h))).
  assert (Hl : customErrs h !! l = None) by apply not_elem_of_dom, is_fresh.
  exists l. eexists. split; [reflexivity|]. split; [done|].
  split; [apply load_CustomErr_at, lookup_insert_eq|].
  split; [|done]. intros k v Hk. simpl. rewrite lookup_insert_ne; [done|].
  fold l. congruence.
Qed.

(** ** One mutator at a time *)

(** X2.  [SetData] returns its receiver and replaces the payload; the
    underlying failure, message, status, primary code and code history read
    as before. *)
Theorem SetData_replaces_data (h : heap) (e : ptr) (a : AppError)
    (c : CustomErr) (data : any) :
  AppError_at h e a c →
  ∃ h', SetData e data h = Ok (e, h') ∧
        accessors_return h' e (AppError_ActualErr a) (CustomErr_Message c)
          (AppError_httpCode a) (CustomErr_Code c) (AppError_ErrorCodes a) data.
Proof.
  intros He. destruct (SetData_at h e a c He data) as (h' & E & He').
  exists h'. split; [done|]. by apply AppError_at_accessors in He'.
Qed.

(** X3.  [SetHTTPCode] returns its receiver and replaces the status, with no
    check of the value; everything else reads as before. *)
Theorem SetHTTPCode_replaces_status (h : heap) (e : ptr) (a : AppError)
    (c : CustomErr) (httpCode : Z) :
  AppError_at h e a c →
  ∃ h', SetHTTPCode e httpCode h = Ok (e, h') ∧
        accessors_return h' e (AppError_ActualErr a) (CustomErr_Message c)
          httpCode (CustomErr_Code c) (AppError_ErrorCodes a) (AppError_data a).
Proof.
  intros He. destruct (SetHTTPCode_at h e a c He httpCode) as (h' & E & He').
  exists h'. split; [done|]. by apply AppError_at_accessors in He'.
Qed.

(** X4.  [SetErr] returns the failure it was given, not the receiver, and
    replaces the underlying failure: [GetErr] returns it and [Error()] its
    message, the empty string when it is nil; everything else reads as
    before. *)
Theorem SetErr_replaces_underlying (h : heap) (e : ptr) (a : AppError)
    (c : CustomErr) (err : error) :
  AppError_at h e a c →
  ∃ h', SetErr e err h = Ok (err, h') ∧
        accessors_return h' e err (CustomErr_Message c) (AppError_httpCode a)
          (CustomErr_Code c) (AppError_ErrorCodes a) (AppError_data a).
Proof.
  intros He. destruct (SetErr_at h e a c He err) as (h' & E & He').
  exists h'. split; [done|]. by apply AppError_at_accessors in He'.
Qed.

(** X5.  [SetMsg] returns its receiver and replaces the definition's
    message; [Error()] and everything else read as before. *)
Theorem SetMsg_replaces_message (h : heap) (e : ptr) (a : AppError)
    (c : CustomErr) (msg : string) :
  AppError_at h e a c →
  ∃ h', SetMsg e msg h = Ok (e, h') ∧
        accessors_return h' e (AppError_ActualErr a) msg (AppError_httpCode a)
          (CustomErr_Code c) (AppError_ErrorCodes a) (AppError_data a).
Proof.
  intros He. destruct (SetMsg_at h e a c He msg) as (h' & E & He').
  exists h'. split; [done|]. by apply AppError_at_accessors in He'.
Qed.

(** X6.  [SetErrCode] returns its receiver and replaces the primary code by
    any string, the empty one included; the code history and everything
    else read as before. *)
Theorem SetErrCode_keeps_history (h : heap) (e : ptr) (a : AppError)
    (c : CustomErr) (code : string) :
  AppError_at h e a c →
  ∃ h', SetErrCode e code h = Ok (e, h') ∧
        accessors_return h' e (AppError_ActualErr a) (CustomErr_Message c)
          (AppError_httpCode a) code (AppError_ErrorCodes a) (AppError_data a).
Proof.
  intros He. destruct (SetErrCode_at h e a c He code) as (h' & E & He').
  exists h'. split; [done|]. by apply AppError_at_accessors in He'.
Qed.

(** X7.  [AddErrCode] with a non-empty code returns its receiver, makes the
    code primary and appends it to the history; the underlying failure,
    message, status and payload read as before. *)
Theorem AddErrCode_touches_codes_only (h : heap) (e : ptr) (a : AppError)
    (c : CustomErr) (errorCode : string) :
  AppError_at h e a c → errorCode ≠ "" →
  ∃ h', AddErrCode e errorCode h = Ok (e, h') ∧
        accessors_return h' e (AppError_ActualErr a) (CustomErr_Message c)
          (AppError_httpCode a) errorCode
          (AppError_ErrorCodes a ++ [errorCode]) (AppError_data a).
Proof.
  intros He Hne. destruct (AddErrCode_at h e a c He errorCode Hne) as (h' & E & He').
  exists h'. split; [done|]. by apply AppError_at_accessors in He'.
Qed.

(** ** Receivers the constructor did not build *)

(** X8.  Every method called on a nil [*AppError] panics, except
    [AddErrCode] with the empty code, which returns the nil receiver. *)
Theorem nil_receiver_panics (h : heap) (err : error) (s : string) (z : Z)
    (data : any) :
  Error None h = Panic ∧ GetErr None h = Panic ∧ SetErr None err h = Panic ∧
  GetMsg None h = Panic ∧ SetMsg None s h = Panic ∧
  GetHTTPCode None h = Panic ∧ SetHTTPCode None z h = Panic ∧
  GetErrCode None h = Panic ∧ SetErrCode None s h = Panic ∧
  GetErrCodes None h = Panic ∧
  GetData None h = Panic ∧ SetData None data h = Panic ∧
  AddErrCode None s h = (if decide (s ≠ "") then Panic else Ok (None, h)).
Proof.
  repeat split; try reflexivity.
  unfold AddErrCode. by destruct (decide (s ≠ "")).
Qed.

(** X9.  On an AppError whose definition pointer is nil (one built without
    the constructor), the methods that go through the definition panic:
    [GetMsg], [SetMsg], [GetErrCode], [SetErrCode], and [AddErrCode] with a
    non-empty code; the other accessors return. *)
Theorem nil_definition_panics (h : heap) (e : ptr) (a : AppError)
    (s : string) :
  load_AppError e h = Ok (a, h) → AppError_CustomErr a = None →
  GetMsg e h = Panic ∧ SetMsg e s h = Panic ∧
  GetErrCode e h = Panic ∧ SetErrCode e s h = Panic ∧
  AddErrCode e s h = (if decide (s ≠ "") then Panic else Ok (e, h)) ∧
  Error e h = Ok (message_of (AppError_ActualErr a), h) ∧
  GetErr e h = Ok (AppError_ActualErr a, h) ∧
  GetHTTPCode e h = Ok (AppError_httpCode a, h) ∧
  GetErrCodes e h = Ok (AppError_ErrorCodes a, h) ∧
  GetData e h = Ok (AppError_data a, h).
Proof.
  intros Ha Hp.
  assert (Hc : load_CustomErr (AppError_CustomErr a) h = Panic)
    by by rewrite Hp.
  unfold GetMsg, SetMsg, GetErrCode, SetErrCode, AddErrCode, GetErr,
    GetHTTPCode, GetErrCodes, GetData.
  destruct (decide (s ≠ ""));
    rewrite ?(bind_Ok _ _ _ _ _ Ha), ?(bind_Panic _ _ _ Hc);
    repeat split; try reflexivity; by apply Error_of_receiver.
Qed.

(** ** Any sequence of calls *)

(** X10.  Whatever methods are called on an AppError, in whatever order:
    all calls return; the code history only grows at its end; the retryable
    flag of the definition keeps its value; and no TraceMeta is touched. *)
Theorem methods_keep_history_and_retryable (h : heap) (e : ptr)
    (a : AppError) (c : CustomErr) (ops : list op) :
  AppError_at h e a c →
  ∃ h' added,
    apply_ops e ops h = Ok (tt, h') ∧
    GetErrCodes e h' = Ok ((AppError_ErrorCodes a ++ added)%list, h') ∧
    read_CustomErr_Retryable e h' = Ok (CustomErr_Retryable c, h') ∧
    traceMetas h' = traceMetas h.
Proof.
  intros He.
  destruct (AppError_at_inv _ _ _ _ He) as (l & lc & -> & Ha & Hp & Hc).
  destruct (ops_AppError_history ops a) as (added & Hadd).
  eexists. exists added.
  split; [by apply (apply_ops_store ops h l lc a c)|].
  assert (He' : AppError_at
            (mkHeap (traceMetas h) (<[lc:=ops_CustomErr ops c]> (customErrs h))
                    (<[l:=ops_AppError ops a]> (appErrors h)))
            (Some l) (ops_AppError ops a) (ops_CustomErr ops c)).
  { apply (AppError_at_intro _ l lc); simpl.
    - apply lookup_insert_eq.
    - by rewrite ops_AppError_CustomErr.
    - apply lookup_insert_eq. }
  split; [rewrite <- Hadd; by eapply GetErrCodes_at|].
  split; [|done].
  rewrite <- (ops_CustomErr_Retryable ops c).
  by apply read_CustomErr_Retryable_at in He'.
Qed.

(** ** The constructor and the store *)

Section ConstructorStore.

Variable TraceMetaKey : string.

(** A call on a usable carrier leaves the carrier usable. *)
Lemma AddTraceLog_frame_ok (ctx : option Context) (msg : string) (h : heap) :
  carrier_ok TraceMetaKey h ctx = true →
  ∃ r tms,
    AddTraceLog TraceMetaKey ctx msg h
    = Ok (r, mkHeap tms (customErrs h) (appErrors h)) ∧
    ∀ ces aes, carrier_ok TraceMetaKey (mkHeap tms ces aes) ctx = true.
Proof.
  intros Hok. destruct (no_TraceMeta TraceMetaKey ctx) eqn:Hno.
  - rewrite AddTraceLog_absent by done. exists None, (traceMetas h).
    split; [by rewrite heap_eta|]. intros ces aes.
    unfold carrier_ok, no_TraceMeta in *. destruct ctx as [c|]; [|done].
    by destruct (Context_Value c TraceMetaKey).
  - unfold carrier_ok, no_TraceMeta in *. destruct ctx as [c|]; [|done].
    destruct (Context_Value c TraceMetaKey) as [| | | | |[l|]| |] eqn:Hv;
      try done.
    destruct (traceMetas h !! l) as [tm|] eqn:Hl; [|done].
    erewrite AddTraceLog_present by done. do 2 eexists. split; [reflexivity|].
    intros ces aes. simpl. by rewrite lookup_insert_eq.
Qed.

(** The store the constructor leaves: the trace cells as [AddTraceLog] left
    them, one new definition cell and one new AppError cell. *)
Lemma GetAppErr_store (ctx : option Context) (ev : errorValue)
    (customErr : ptr) (httpCode : Z) (meta : list any) (h : heap)
    (r : ptr) (tms : gmap loc TraceMeta) :
  AddTraceLog TraceMetaKey ctx (errorValue_Error ev) h
  = Ok (r, mkHeap tms (customErrs h) (appErrors h)) →
  nil_or_allocated (customErrs h) customErr = true →
  GetAppErr TraceMetaKey ctx (Some ev) customErr httpCode meta h
  = Ok (Some (fresh (dom (appErrors h))),
        mkHeap tms
          (<[fresh (dom (customErrs h)):=definition_from (template_of h customErr)]>
             (customErrs h))
          (<[fresh (dom (appErrors h)):=
               mkAppError (Some ev) (Some (fresh (dom (customErrs h))))
                 (history_from (template_of h customErr)) httpCode
                 (first_meta meta)]>
             (appErrors h))).
Proof.
  intros Ht Hd.
  set (lc := fresh (dom (customErrs h))).
  set (l := fresh (dom (appErrors h))).
  assert (Hlc : customErrs h !! lc = None) by apply not_elem_of_dom, is_fresh.
  unfold GetAppErr.
  rewrite (bind_Ok _ _ h (errorValue_Error ev) h) by reflexivity.
  rewrite (bind_Ok _ _ _ _ _ Ht).
  rewrite (bind_Ok _ _ _ (Some lc)
             (mkHeap tms (<[lc:=CustomErr_zero]> (customErrs h)) (appErrors h)))
    by reflexivity.
  rewrite (bind_Ok _ _ _ (Some l)
             (mkHeap tms (<[lc:=CustomErr_zero]> (customErrs h))
                (<[l:=mkAppError (Some ev) (Some lc) [] httpCode AnyNil]>
                   (appErrors h))))
    by reflexivity.
  unfold bind, ret, load_CustomErr, store_CustomErr, load_AppError,
    store_AppError.
  destruct customErr as [ld|]; simpl in Hd |- *.
  - destruct (customErrs h !! ld) as [d|] eqn:Hld; [|done].
    assert (Hne : lc ≠ ld) by congruence.
    destruct meta as [|m0 meta']; exec_cells; reflexivity.
  - destruct meta as [|m0 meta']; exec_cells; reflexivity.
Qed.

Lemma fresh_AppError_cell (h : heap) :
  appErrors h !! fresh (dom (appErrors h)) = None.
Proof. apply not_elem_of_dom, is_fresh. Qed.

Lemma fresh_CustomErr_cell (h : heap) :
  customErrs h !! fresh (dom (customErrs h)) = None.
Proof. apply not_elem_of_dom, is_fresh. Qed.

(** X11.  Constructed from a template, an AppError reads: the underlying
    failure and its message, the template's message and code, the status
    given, a history of exactly the template's code (also when that code is
    empty), and the first metadata value or nil. *)
Theorem GetAppErr_from_template (ctx : option Context) (ev : errorValue)
    (d : loc) (dv : CustomErr) (httpCode : Z) (meta : list any) (h : heap) :
  carrier_ok TraceMetaKey h ctx = true →
  customErrs h !! d = Some dv →
  ∃ e h1,
    GetAppErr TraceMetaKey ctx (Some ev) (Some d) httpCode meta h = Ok (e, h1) ∧
    accessors_return h1 e (Some ev) (CustomErr_Message dv) httpCode
      (CustomErr_Code dv) [CustomErr_Code dv] (first_meta meta).
Proof.
  intros Hctx Hd.
  destruct (AddTraceLog_frame_ok ctx (errorValue_Error ev) h Hctx)
    as (r & tms & Ht & _).
  do 2 eexists. split.
  { apply (GetAppErr_store _ _ _ _ _ _ _ _ Ht). simpl. by rewrite Hd. }
  simpl. rewrite Hd. simpl.
  apply (AppError_at_accessors _ _
           (mkAppError (Some ev) (Some (fresh (dom (customErrs h))))
              [CustomErr_Code dv] httpCode (first_meta meta))
           (mkCustomErr (CustomErr_Code dv) (CustomErr_Message dv) false)).
  eapply AppError_at_intro; simpl; [apply lookup_insert_eq|done|apply lookup_insert_eq].
Qed.

(** X12.  On a carrier whose key holds a pointer to a TraceMeta, the
    constructor appends the message of the underlying failure to the end of
    that TraceMeta's error log and leaves the other trace cells alone; the
    message appended is the one [Error()] returns on the new AppError. *)
Theorem GetAppErr_logs_failure (c : Context) (lt : loc) (tm : TraceMeta)
    (ev : errorValue) (customErr : ptr) (httpCode : Z) (meta : list any)
    (h : heap) :
  Context_Value c TraceMetaKey = AnyTraceMetaPtr (Some lt) →
  traceMetas h !! lt = Some tm →
  nil_or_allocated (customErrs h) customErr = true →
  ∃ e h1 msg,
    GetAppErr TraceMetaKey (Some c) (Some ev) customErr httpCode meta h
    = Ok (e, h1) ∧
    Error e h1 = Ok (msg, h1) ∧
    traceMetas h1
    = <[lt:=mkTraceMeta (TraceMeta_Trace tm) (TraceMeta_Error tm ++ [msg])
              (TraceMeta_IdentifierMappings tm)]> (traceMetas h).
Proof.
  intros Hv Hl Hd.
  pose proof (AddTraceLog_present TraceMetaKey c (errorValue_Error ev) h lt tm
                Hv Hl) as Ht.
  do 2 eexists. exists (errorValue_Error ev). split.
  { by apply (GetAppErr_store _ _ _ _ _ _ _ _ Ht). }
  split; [|done].
  apply (Error_of_receiver _ _
           (mkAppError (Some ev) (Some (fresh (dom (customErrs h))))
              (history_from (template_of h customErr)) httpCode
              (first_meta meta))).
  apply load_AppError_at. simpl. apply lookup_insert_eq.
Qed.

(** X13.  On a carrier that is absent or holds no [*TraceMeta] under the
    key, the constructor still returns an AppError, and no TraceMeta of the
    store is changed. *)
Theorem GetAppErr_without_trace (ctx : option Context) (ev : errorValue)
    (customErr : ptr) (httpCode : Z) (meta : list any) (h : heap) :
  no_TraceMeta TraceMetaKey ctx = true →
  nil_or_allocated (customErrs h) customErr = true →
  ∃ e h1 a c,
    GetAppErr TraceMetaKey ctx (Some ev) customErr httpCode meta h = Ok (e, h1) ∧
    AppError_at h1 e a c ∧
    traceMetas h1 = traceMetas h.
Proof.
  intros Hno Hd.
  pose proof (AddTraceLog_absent TraceMetaKey ctx (errorValue_Error ev) h Hno)
    as Ht.
  rewrite <- (heap_eta h) in Ht at 2.
  do 4 eexists. split.
  { by apply (GetAppErr_store _ _ _ _ _ _ _ _ Ht). }
  split; [|done].
  eapply AppError_at_intro; simpl; [apply lookup_insert_eq|done|apply lookup_insert_eq].
Qed.

(** X14.  Constructing an AppError returns a pointer that was not in use
    and disturbs no AppError already in the store: the accessors of an
    existing one return what they returned before, and the template reads
    as before. *)
Theorem GetAppErr_preserves_existing (ctx : option Context) (ev : errorValue)
    (customErr : ptr) (httpCode : Z) (meta : list any) (h : heap)
    (e0 : ptr) (a0 : AppError) (c0 : CustomErr) :
  carrier_ok TraceMetaKey h ctx = true →
  nil_or_allocated (customErrs h) customErr = true →
  AppError_at h e0 a0 c0 →
  ∃ e h1,
    GetAppErr TraceMetaKey ctx (Some ev) customErr httpCode meta h = Ok (e, h1) ∧
    e ≠ e0 ∧
    accessors_return h1 e0 (AppError_ActualErr a0) (CustomErr_Message c0)
      (AppError_httpCode a0) (CustomErr_Code c0) (AppError_ErrorCodes a0)
      (AppError_data a0) ∧
    template_of h1 customErr = template_of h customErr.
Proof.
  intros Hctx Hd He0.
  destruct (AddTraceLog_frame_ok ctx (errorValue_Error ev) h Hctx)
    as (r & tms & Ht & _).
  destruct (AppError_at_inv _ _ _ _ He0) as (l0 & lc0 & -> & Ha & Hp & Hc).
  pose proof (fresh_AppError_cell h) as Hl.
  pose proof (fresh_CustomErr_cell h) as Hlc.
  do 2 eexists. split.
  { by apply (GetAppErr_store _ _ _ _ _ _ _ _ Ht). }
  split; [congruence|]. split.
  - apply AppError_at_accessors, (AppError_at_intro _ l0 lc0); simpl; try done.
    + rewrite lookup_insert_ne; [done|congruence].
    + rewrite lookup_insert_ne; [done|congruence].
  - destruct customErr as [ld|]; simpl in *; [|done].
    destruct (customErrs h !! ld) eqn:Hld; [|done].
    rewrite lookup_insert_ne; [done|congruence].
Qed.

(** X15.  Two AppErrors constructed from one template are separate: the
    pointers differ, and whatever methods are then called on the first, the
    second reads as constructed and the template is as it was. *)
Theorem GetAppErr_twice_independent (ctx : option Context)
    (ev1 ev2 : errorValue) (d : loc) (dv : CustomErr) (httpCode1 httpCode2 : Z)
    (h : heap) :
  carrier_ok TraceMetaKey h ctx = true →
  customErrs h !! d = Some dv →
  ∃ e1 e2 h2,
    GetAppErr_twice TraceMetaKey ctx (Some ev1) (Some ev2) (Some d)
      httpCode1 httpCode2 h = Ok ((e1, e2), h2) ∧
    e1 ≠ e2 ∧
    ∀ ops, ∃ h3,
      apply_ops e1 ops h2 = Ok (tt, h3) ∧
      accessors_return h3 e2 (Some ev2) (CustomErr_Message dv) httpCode2
        (CustomErr_Code dv) [CustomErr_Code dv] AnyNil ∧
      load_CustomErr (Some d) h3 = Ok (dv, h3).
Proof.
  intros Hctx Hd.
  destruct (AddTraceLog_frame_ok ctx (errorValue_Error ev1) h Hctx)
    as (r1 & tms1 & Ht1 & Hctx1).
  assert (Hd0 : nil_or_allocated (customErrs h) (Some d) = true)
    by (simpl; by rewrite Hd).
  pose proof (GetAppErr_store ctx ev1 (Some d) httpCode1 [] h r1 tms1 Ht1 Hd0)
    as E1.
  simpl in E1. rewrite Hd in E1. simpl in E1.
  set (l1 := fresh (dom (appErrors h))) in *.
  set (lc1 := fresh (dom (customErrs h))) in *.
  set (a1 := mkAppError (Some ev1) (Some lc1) [CustomErr_Code dv] httpCode1 AnyNil) in *.
  set (c1 := mkCustomErr (CustomErr_Code dv) (CustomErr_Message dv) false) in *.
  set (h1 := mkHeap tms1 (<[lc1:=c1]> (customErrs h)) (<[l1:=a1]> (appErrors h))) in *.
  assert (Hne1 : lc1 ≠ d).
  { pose proof (fresh_CustomErr_cell h). unfold lc1. congruence. }
  assert (Hd1 : customErrs h1 !! d = Some dv).
  { simpl. by rewrite lookup_insert_ne. }
  destruct (AddTraceLog_frame_ok ctx (errorValue_Error ev2) h1 (Hctx1 _ _))
    as (r2 & tms2 & Ht2 & _).
  assert (Hd1' : nil_or_allocated (customErrs h1) (Some d) = true).
  { unfold nil_or_allocated. by rewrite Hd1. }
  pose proof (GetAppErr_store ctx ev2 (Some d) httpCode2 [] h1 r2 tms2 Ht2 Hd1')
    as E2.
  unfold template_of in E2. rewrite Hd1 in E2. simpl in E2.
  pose proof (fresh_AppError_cell h1) as Hl2.
  pose proof (fresh_CustomErr_cell h1) as Hlc2.
  set (l2 := fresh (dom (appErrors h1))) in *.
  set (lc2 := fresh (dom (customErrs h1))) in *.
  assert (Hl12 : l2 ≠ l1).
  { intros ->. simpl in Hl2. by rewrite lookup_insert_eq in Hl2. }
  assert (Hlc12 : lc2 ≠ lc1).
  { intros Heq. rewrite Heq in Hlc2. simpl in Hlc2.
    by rewrite lookup_insert_eq in Hlc2. }
  assert (Hlc2d : lc2 ≠ d) by congruence.
  exists (Some l1), (Some l2). eexists. split.
  { unfold GetAppErr_twice. rewrite (bind_Ok _ _ _ _ _ E1).
    fold h1. rewrite (bind_Ok _ _ _ _ _ E2). reflexivity. }
  split; [congruence|].
  intros ops. eexists. split.
  { apply (apply_ops_store ops _ l1 lc1 a1 c1); simpl.
    - rewrite lookup_insert_ne by done. apply lookup_insert_eq.
    - done.
    - rewrite lookup_insert_ne by done. apply lookup_insert_eq. }
  split.
  - apply (AppError_at_accessors _ _
             (mkAppError (Some ev2) (Some lc2) [CustomErr_Code dv] httpCode2 AnyNil)
             (mkCustomErr (CustomErr_Code dv) (CustomErr_Message dv) false)).
    apply (AppError_at_intro _ l2 lc2); simpl.
    + rewrite lookup_insert_ne by done. apply lookup_insert_eq.
    + done.
    + rewrite lookup_insert_ne by done. apply lookup_insert_eq.
  - apply load_CustomErr_at. simpl.
    rewrite !lookup_insert_ne by done. done.
Qed.

(** ** The trace log *)

(** X16.  Any number of sequential [AddTraceLog] calls on a carrier holding
    a pointer to a TraceMeta append their messages to its error log in call
    order; its other fields, the other trace cells and the errors in the
    store are left alone. *)
Theorem AddTraceLogs_append (c : Context) (l : loc) (msgs : list string) :
  Context_Value c TraceMetaKey = AnyTraceMetaPtr (Some l) →
  ∀ (h : heap) (tm : TraceMeta),
    traceMetas h !! l = Some tm →
    AddTraceLogs TraceMetaKey (Some c) msgs h
    = Ok (tt,
          mkHeap (<[l:=mkTraceMeta (TraceMeta_Trace tm)
                         (TraceMeta_Error tm ++ msgs)
                         (TraceMeta_IdentifierMappings tm)]> (traceMetas h))
                 (customErrs h) (appErrors h)).
Proof.
  intros Hv. induction msgs as [|m msgs IH]; intros h tm Hl; simpl.
  - unfold ret. rewrite app_nil_r.
    replace (mkTraceMeta _ _ _) with tm by by destruct tm.
    by rewrite insert_id, heap_eta.
  - rewrite (bind_Ok _ _ _ _ _ (AddTraceLog_present TraceMetaKey c m h l tm Hv Hl)).
    erewrite IH by (simpl; apply lookup_insert_eq). simpl.
    by rewrite insert_insert_eq, <- app_assoc.
Qed.

(** X17.  When the key holds a nil [*TraceMeta], the type assertion
    succeeds and the nil pointer is dereferenced: [AddTraceLog] panics, and
    so does the constructor, whatever its other arguments. *)
Theorem nil_TraceMeta_panics (c : Context) (msg : string) (err : error)
    (customErr : ptr) (httpCode : Z) (meta : list any) (h : heap) :
  Context_Value c TraceMetaKey = AnyTraceMetaPtr None →
  AddTraceLog TraceMetaKey (Some c) msg h = Panic ∧
  GetAppErr TraceMetaKey (Some c) err customErr httpCode meta h = Panic.
Proof.
  intros Hv.
  assert (Hp : ∀ m h0, AddTraceLog TraceMetaKey (Some c) m h0 = Panic).
  { intros m h0. unfold AddTraceLog. by rewrite Hv. }
  split; [apply Hp|]. destruct err as [ev|]; [|reflexivity].
  unfold GetAppErr.
  rewrite (bind_Ok _ _ h (errorValue_Error ev) h) by reflexivity.
  by rewrite (bind_Panic _ _ _ (Hp _ _)).
Qed.

End ConstructorStore.

(** ** The further properties at sample inputs *)

Lemma SetData_replaces_data_witness :
  AppError_at sample_heap_with_error (Some 1%positive) sample_AppError
    sample_definition ∧
  ∃ h', SetData (Some 1%positive) (AnyString "email") sample_heap_with_error
        = Ok (Some 1%positive, h') ∧
        accessors_return h' (Some 1%positive) (Some sample_err)
          "unexpected error occurred" 500 "ERR_SVC_1003" ["ERR_SVC_1003"]
          (AnyString "email").
Proof.
  assert (He : AppError_at sample_heap_with_error (Some 1%positive)
                 sample_AppError sample_definition)
    by (split; reflexivity).
  split; [exact He|].
  exact (SetData_replaces_data _ _ _ _ (AnyString "email") He).
Defined.

Lemma SetHTTPCode_replaces_status_witness :
  AppError_at sample_heap_with_error (Some 1%positive) sample_AppError
    sample_definition ∧
  ∃ h', SetHTTPCode (Some 1%positive) 422 sample_heap_with_error
        = Ok (Some 1%positive, h') ∧
        accessors_return h' (Some 1%positive) (Some sample_err)
          "unexpected error occurred" 422 "ERR_SVC_1003" ["ERR_SVC_1003"]
          AnyNil.
Proof.
  assert (He : AppError_at sample_heap_with_error (Some 1%positive)
                 sample_AppError sample_definition)
    by (split; reflexivity).
  split; [exact He|].
  exact (SetHTTPCode_replaces_status _ _ _ _ 422%Z He).
Defined.

Lemma SetErr_replaces_underlying_witness :
  AppError_at sample_heap_with_error (Some 1%positive) sample_AppError
    sample_definition ∧
  ∃ h', SetErr (Some 1%positive) None sample_heap_with_error = Ok (None, h') ∧
        accessors_return h' (Some 1%positive) None
          "unexpected error occurred" 500 "ERR_SVC_1003" ["ERR_SVC_1003"]
          AnyNil.
Proof.
  assert (He : AppError_at sample_heap_with_error (Some 1%positive)
                 sample_AppError sample_definition)
    by (split; reflexivity).
  split; [exact He|].
  exact (SetErr_replaces_underlying _ _ _ _ None He).
Defined.

Lemma SetMsg_replaces_message_witness :
  AppError_at sample_heap_with_error (Some 1%positive) sample_AppError
    sample_definition ∧
  ∃ h', SetMsg (Some 1%positive) "timeout" sample_heap_with_error
        = Ok (Some 1%positive, h') ∧
        accessors_return h' (Some 1%positive) (Some sample_err)
          "timeout" 500 "ERR_SVC_1003" ["ERR_SVC_1003"] AnyNil.
Proof.
  assert (He : AppError_at sample_heap_with_error (Some 1%positive)
                 sample_AppError sample_definition)
    by (split; reflexivity).
  split; [exact He|].
  exact (SetMsg_replaces_message _ _ _ _ "timeout" He).
Defined.

Lemma SetErrCode_keeps_history_witness :
  AppError_at sample_heap_with_error (Some 1%positive) sample_AppError
    sample_definition ∧
  ∃ h', SetErrCode (Some 1%positive) "" sample_heap_with_error
        = Ok (Some 1%positive, h') ∧
        accessors_return h' (Some 1%positive) (Some sample_err)
          "unexpected error occurred" 500 "" ["ERR_SVC_1003"] AnyNil.
Proof.
  assert (He : AppError_at sample_heap_with_error (Some 1%positive)
                 sample_AppError sample_definition)
    by (split; reflexivity).
  split; [exact He|].
  exact (SetErrCode_keeps_history _ _ _ _ "" He).
Defined.

Lemma AddErrCode_touches_codes_only_witness :
  AppError_at sample_heap_with_error (Some 1%positive) sample_AppError
    sample_definition ∧
  "ERR_NETWORK_TIMEOUT" ≠ "" ∧
  ∃ h', AddErrCode (Some 1%positive) "ERR_NETWORK_TIMEOUT"
          sample_heap_with_error = Ok (Some 1%positive, h') ∧
        accessors_return h' (Some 1%positive) (Some sample_err)
          "unexpected error occurred" 500 "ERR_NETWORK_TIMEOUT"
          ["ERR_SVC_1003"; "ERR_NETWORK_TIMEOUT"] AnyNil.
Proof.
  assert (He : AppError_at sample_heap_with_error (Some 1%positive)
                 sample_AppError sample_definition)
    by (split; reflexivity).
  split; [exact He|]. split; [discriminate|].
  apply (AddErrCode_touches_codes_only _ _ _ _ "ERR_NETWORK_TIMEOUT"
           He).
  discriminate.
Defined.

Lemma nil_definition_panics_witness :
  load_AppError (Some 1%positive) zero_AppError_heap
  = Ok (AppError_zero, zero_AppError_heap) ∧
  AppError_CustomErr AppError_zero = None ∧
  GetMsg (Some 1%positive) zero_AppError_heap = Panic ∧
  GetErrCode (Some 1%positive) zero_AppError_heap = Panic ∧
  AddErrCode (Some 1%positive) "ERR_X" zero_AppError_heap = Panic ∧
  Error (Some 1%positive) zero_AppError_heap = Ok ("", zero_AppError_heap).
Proof.
  split; [reflexivity|]. split; [reflexivity|].
  destruct (nil_definition_panics zero_AppError_heap (Some 1%positive)
              AppError_zero "ERR_X" eq_refl eq_refl)
    as (H1 & _ & H3 & _ & H5 & H6 & _).
  split; [exact H1|]. split; [exact H3|]. split; [exact H5|exact H6].
Defined.

Lemma methods_keep_history_and_retryable_witness :
  AppError_at sample_heap_with_error (Some 1%positive) sample_AppError
    sample_definition ∧
  ∃ h' added,
    apply_ops (Some 1%positive)
      [OpSetErrCode "ERR_A"; OpAddErrCode "ERR_B"; OpSetMsg "m"; OpSetData AnyNil]
      sample_heap_with_error = Ok (tt, h') ∧
    GetErrCodes (Some 1%positive) h' = Ok (("ERR_SVC_1003" :: added)%list, h') ∧
    read_CustomErr_Retryable (Some 1%positive) h' = Ok (false, h') ∧
    traceMetas h' = traceMetas sample_heap_with_error.
Proof.
  assert (He : AppError_at sample_heap_with_error (Some 1%positive)
                 sample_AppError sample_definition)
    by (split; reflexivity).
  split; [exact He|].
  exact (methods_keep_history_and_retryable _ _ _ _
           [OpSetErrCode "ERR_A"; OpAddErrCode "ERR_B"; OpSetMsg "m";
            OpSetData AnyNil] He).
Defined.

Lemma GetAppErr_from_template_witness :
  carrier_ok "traceMeta" sample_heap (sample_ctx "traceMeta") = true ∧
  customErrs sample_heap !! 1%positive = Some sample_template ∧
  ∃ e h1,
    GetAppErr "traceMeta" (sample_ctx "traceMeta") (Some sample_err)
      (Some 1%positive) 503 [AnyInt 3] sample_heap = Ok (e, h1) ∧
    accessors_return h1 e (Some sample_err) "service temporarily unavailable"
      503 "ERR_SVC_1005" ["ERR_SVC_1005"] (AnyInt 3).
Proof.
  split; [reflexivity|]. split; [reflexivity|].
  exact (GetAppErr_from_template "traceMeta" (sample_ctx "traceMeta")
           sample_err 1%positive sample_template 503 [AnyInt 3] sample_heap
           eq_refl eq_refl).
Defined.

Lemma GetAppErr_logs_failure_witness :
  Context_Value
    (WithValue Background "traceMeta" (AnyTraceMetaPtr (Some 1%positive)))
    "traceMeta" = AnyTraceMetaPtr (Some 1%positive) ∧
  traceMetas sample_heap !! 1%positive = Some sample_TraceMeta ∧
  nil_or_allocated (customErrs sample_heap) (Some 1%positive) = true ∧
  ∃ e h1 msg,
    GetAppErr "traceMeta" (sample_ctx "traceMeta") (Some sample_err)
      (Some 1%positive) 503 [] sample_heap = Ok (e, h1) ∧
    Error e h1 = Ok (msg, h1) ∧
    traceMetas h1 = <[1%positive:=mkTraceMeta [] [msg] ∅]> (traceMetas sample_heap).
Proof.
  split; [reflexivity|]. split; [reflexivity|]. split; [reflexivity|].
  exact (GetAppErr_logs_failure "traceMeta"
           (WithValue Background "traceMeta" (AnyTraceMetaPtr (Some 1%positive)))
           1%positive sample_TraceMeta sample_err (Some 1%positive) 503 []
           sample_heap eq_refl eq_refl eq_refl).
Defined.

Lemma GetAppErr_without_trace_witness :
  no_TraceMeta "traceMeta" (wrong_shape_ctx "traceMeta") = true ∧
  nil_or_allocated (customErrs sample_heap) (Some 1%positive) = true ∧
  ∃ e h1 a c,
    GetAppErr "traceMeta" (wrong_shape_ctx "traceMeta") (Some sample_err)
      (Some 1%positive) 503 [] sample_heap = Ok (e, h1) ∧
    AppError_at h1 e a c ∧
    traceMetas h1 = traceMetas sample_heap.
Proof.
  split; [reflexivity|]. split; [reflexivity|].
  exact (GetAppErr_without_trace "traceMeta" (wrong_shape_ctx "traceMeta")
           sample_err (Some 1%positive) 503 [] sample_heap eq_refl eq_refl).
Defined.

Lemma GetAppErr_preserves_existing_witness :
  carrier_ok "traceMeta" sample_heap_full (sample_ctx "traceMeta") = true ∧
  nil_or_allocated (customErrs sample_heap_full) (Some 1%positive) = true ∧
  AppError_at sample_heap_full (Some 1%positive) sample_AppError
    sample_definition ∧
  ∃ e h1,
    GetAppErr "traceMeta" (sample_ctx "traceMeta") (Some sample_err)
      (Some 1%positive) 503 [] sample_heap_full = Ok (e, h1) ∧
    e ≠ Some 1%positive ∧
    accessors_return h1 (Some 1%positive) (Some sample_err)
      "unexpected error occurred" 500 "ERR_SVC_1003" ["ERR_SVC_1003"] AnyNil ∧
    template_of h1 (Some 1%positive) = Some sample_template.
Proof.
  assert (He : AppError_at sample_heap_full (Some 1%positive)
                 sample_AppError sample_definition)
    by (split; reflexivity).
  split; [reflexivity|]. split; [reflexivity|]. split; [exact He|].
  exact (GetAppErr_preserves_existing "traceMeta" (sample_ctx "traceMeta")
           sample_err (Some 1%positive) 503 [] sample_heap_full
           (Some 1%positive) sample_AppError sample_definition
           eq_refl eq_refl He).
Defined.

Lemma GetAppErr_twice_independent_witness :
  carrier_ok "traceMeta" sample_heap (sample_ctx "traceMeta") = true ∧
  customErrs sample_heap !! 1%positive = Some sample_template ∧
  ∃ e1 e2 h2,
    GetAppErr_twice "traceMeta" (sample_ctx "traceMeta") (Some sample_err)
      (Some (errorString "second failure")) (Some 1%positive) 503 500
      sample_heap = Ok ((e1, e2), h2) ∧
    e1 ≠ e2 ∧
    ∃ h3,
      apply_ops e1 [OpAddErrCode "ERR_NETWORK_TIMEOUT"; OpSetMsg "timeout"] h2
      = Ok (tt, h3) ∧
      accessors_return h3 e2 (Some (errorString "second failure"))
        "service temporarily unavailable" 500 "ERR_SVC_1005" ["ERR_SVC_1005"]
        AnyNil.
Proof.
  split; [reflexivity|]. split; [reflexivity|].
  destruct (GetAppErr_twice_independent "traceMeta" (sample_ctx "traceMeta")
              sample_err (errorString "second failure") 1%positive
              sample_template 503 500 sample_heap eq_refl eq_refl)
    as (e1 & e2 & h2 & E & Hne & Hops).
  exists e1, e2, h2. split; [exact E|]. split; [exact Hne|].
  destruct (Hops [OpAddErrCode "ERR_NETWORK_TIMEOUT"; OpSetMsg "timeout"])
    as (h3 & E3 & Hacc & _).
  exists h3. split; [exact E3|exact Hacc].
Defined.

Lemma AddTraceLogs_append_witness :
  Context_Value
    (WithValue Background "traceMeta" (AnyTraceMetaPtr (Some 1%positive)))
    "traceMeta" = AnyTraceMetaPtr (Some 1%positive) ∧
  traceMetas sample_heap !! 1%positive = Some sample_TraceMeta ∧
  AddTraceLogs "traceMeta" (sample_ctx "traceMeta") ["first"; "second"; "third"]
    sample_heap
  = Ok (tt, mkHeap {[ 1%positive := mkTraceMeta [] ["first"; "second"; "third"] ∅ ]}
                   (customErrs sample_heap) (appErrors sample_heap)).
Proof.
  split; [reflexivity|]. split; [reflexivity|].
  exact (AddTraceLogs_append "traceMeta"
           (WithValue Background "traceMeta" (AnyTraceMetaPtr (Some 1%positive)))
           1%positive ["first"; "second"; "third"] eq_refl sample_heap
           sample_TraceMeta eq_refl).
Defined.

Lemma nil_TraceMeta_panics_witness :
  Context_Value (nil_TraceMeta_ctx "traceMeta") "traceMeta"
  = AnyTraceMetaPtr None ∧
  AddTraceLog "traceMeta" (Some (nil_TraceMeta_ctx "traceMeta")) "db timeout"
    sample_heap = Panic ∧
  GetAppErr "traceMeta" (Some (nil_TraceMeta_ctx "traceMeta")) (Some sample_err)
    (Some 1%positive) 503 [] sample_heap = Panic.
Proof.
  split; [reflexivity|].
  exact (nil_TraceMeta_panics "traceMeta" (nil_TraceMeta_ctx "traceMeta")
           "db timeout" (Some sample_err) (Some 1%positive) 503 [] sample_heap
           eq_refl).
Defined.
